(** * Evaluation harness of dl_histopathology: [src/evaluation/evaluator.py]

    A shallow embedding of the abstract [Evaluator] class and of its two
    subclasses [YoloEvaluator] and [RCNNEvaluator].

    - Python exceptions are values of [exn]; a call that may raise returns a
      [result].
    - A method that may assign attributes of [self] is a function
      [self -> result A * self]: the attributes assigned before a [raise]
      stay assigned, as in Python.
    - 2-D tensors carry their column count, so that a tensor of shape
      [(0, 6)] differs from one of shape [(0, 4)].
    - The collaborators that live outside the file ([data_utils],
      [image_labelling], [ObjectDetectionMetrics], [os.path], the image
      decoder) are the fields of one record, [Collaborators]. *)

From Stdlib Require Import ZArith QArith List Bool Lia.
From stdpp Require Import base option list strings gmap.

Local Open Scope string_scope.
Local Open Scope Z_scope.
Local Open Scope list_scope.

(** ** Exceptions and results *)

(** The file raises [Exception] at three places, with two messages, which
    the first two constructors tell apart; the tensor library raises on a
    shape mismatch or an overflow, and Python on a missing index or
    attribute. *)
Inductive exn : Type :=
| LabelFileNotFoundError (filename : string)   (* line 41 *)
| NoDataError                                  (* lines 72 and 81 *)
| IndexError (what : string)
| RuntimeError (what : string)
| AttributeError (name : string).

(** The text the exception carries. *)
Definition message (e : exn) : string :=
  match e with
  | LabelFileNotFoundError filename =>
      "Label file for " +:+ filename +:+ " not found in label directory"
  | NoDataError => "No predictions and/or ground truths found"
  | IndexError what => what
  | RuntimeError what => what
  | AttributeError name => name
  end.

Inductive result (A : Type) : Type :=
| Ok (a : A)
| Raise (e : exn).
Arguments Ok {A} a.
Arguments Raise {A} e.

Definition is_Ok {A} (r : result A) : bool :=
  match r with Ok _ => true | Raise _ => false end.

Definition rbind {A B} (r : result A) (k : A -> result B) : result B :=
  match r with
  | Ok a => k a
  | Raise e => Raise e
  end.

(** ** Methods: state passing with exceptions *)

Definition Py (S A : Type) : Type := S -> result A * S.

Definition ret {S A} (a : A) : Py S A := fun s => (Ok a, s).
Definition raise {S A} (e : exn) : Py S A := fun s => (Raise e, s).
Definition bind {S A B} (m : Py S A) (k : A -> Py S B) : Py S B :=
  fun s =>
    match m s with
    | (Ok a, s') => k a s'
    | (Raise e, s') => (Raise e, s')
    end.
Definition gets {S A} (f : S -> A) : Py S A := fun s => (Ok (f s), s).
Definition modify {S} (f : S -> S) : Py S unit := fun s => (Ok tt, f s).
Definition lift {S A} (r : result A) : Py S A := fun s => (r, s).

Declare Scope py_scope.
Delimit Scope py_scope with py.
Notation "x <- m ;; k" := (bind m (fun x => k))
  (at level 100, m at next level, right associativity) : py_scope.
Notation "m ;;; k" := (bind m (fun _ => k))
  (at level 100, right associativity) : py_scope.

(** [for i in xs: body(i)] *)
Fixpoint for_each {S A} (xs : list A) (body : A -> Py S unit) : Py S unit :=
  match xs with
  | [] => ret tt
  | x :: xs' => bind (body x) (fun _ => for_each xs' body)
  end.

(** [xs[i]] on a Python list, for [i >= 0]. *)
Definition index {A} (xs : list A) (i : nat) : result A :=
  match xs !! i with
  | Some x => Ok x
  | None => Raise (IndexError "list index out of range")
  end.

(** ** Tensors *)

(** A 2-D tensor of shape [(length rows, ncols)]; a 1-D tensor is a list. *)
Record Tensor2 (A : Type) : Type := mkTensor2 {
  ncols : nat;
  rows : list (list A)
}.
Arguments mkTensor2 {A} ncols rows.
Arguments ncols {A} t.
Arguments rows {A} t.

Definition nrows {A} (t : Tensor2 A) : nat := length (rows t).

(** Every row has [ncols] entries. *)
Definition well_shaped {A} (t : Tensor2 A) : Prop :=
  Forall (fun r => length r = ncols t) (rows t).

Definition tmap {A B} (f : A -> B) (t : Tensor2 A) : Tensor2 B :=
  {| ncols := ncols t; rows := map (map f) (rows t) |}.

(** [v.unsqueeze(-1)] (the same as [v.unsqueeze(1)]) on a 1-D tensor. *)
Definition unsqueeze {A} (v : list A) : Tensor2 A :=
  {| ncols := 1; rows := map (fun x => [x]) v |}.

(** Selection of the entries at which the mask holds, lengths being equal. *)
Fixpoint select {A} (xs : list A) (mask : list bool) : list A :=
  match xs, mask with
  | x :: xs', b :: mask' => if b then x :: select xs' mask' else select xs' mask'
  | _, _ => []
  end.

Definition mask_mismatch : exn :=
  IndexError "The shape of the mask does not match the shape of the indexed tensor".

(** [v[i]] for a boolean mask [i] over a 1-D tensor. *)
Definition mask_index1 {A} (v : list A) (i : list bool) : result (list A) :=
  if Nat.eqb (length v) (length i) then Ok (select v i) else Raise mask_mismatch.

(** [t[i]] for a boolean mask [i] over the rows of a 2-D tensor. *)
Definition mask_index2 {A} (t : Tensor2 A) (i : list bool) : result (Tensor2 A) :=
  if Nat.eqb (nrows t) (length i)
  then Ok {| ncols := ncols t; rows := select (rows t) i |}
  else Raise mask_mismatch.

Definition cat_mismatch : exn :=
  RuntimeError "Sizes of tensors must match except in dimension 1".

(** Rows of [a] followed, row by row, by those of [b]. *)
Fixpoint hcat {A} (a b : list (list A)) : list (list A) :=
  match a, b with
  | r :: a', r' :: b' => (r ++ r') :: hcat a' b'
  | _, _ => []
  end.

(** [torch.cat(ts, dim=-1)] over 2-D tensors: the row counts must agree. *)
Fixpoint cat {A} (ts : list (Tensor2 A)) : result (Tensor2 A) :=
  match ts with
  | [] => Raise (RuntimeError "torch.cat(): expected a non-empty list of Tensors")
  | [t] => Ok t
  | t :: ts' =>
      rbind (cat ts') (fun u =>
        if Nat.eqb (nrows t) (nrows u)
        then Ok {| ncols := (ncols t + ncols u)%nat; rows := hcat (rows t) (rows u) |}
        else Raise cat_mismatch)
  end.

(** 64-bit and 32-bit signed integers, as [Z] with the wrap-around. *)
Definition wrap (w : Z) (x : Z) : Z :=
  (x + 2 ^ (w - 1)) mod 2 ^ w - 2 ^ (w - 1).

Definition int64 (x : Z) : Prop := - 2 ^ 63 <= x < 2 ^ 63.
Definition int32 (x : Z) : Prop := - 2 ^ 31 <= x < 2 ^ 31.

Definition sub64 (x y : Z) : Z := wrap 64 (x - y).

Definition in_int32 (x : Z) : bool := (- 2 ^ 31 <=? x) && (x <? 2 ^ 31).

(** [torch.as_tensor(xs, dtype=torch.int32)] on a list of Python integers:
    a value outside the 32-bit range is refused. *)
Definition as_tensor_int32 (xs : list Z) : result (list Z) :=
  if forallb in_int32 xs then Ok xs
  else Raise (RuntimeError "value cannot be converted to type int32 without overflow").

(** ** The harness *)

Section Harness.

(** [F] is the floating-point element type of the tensors and [of_int] the
    promotion of an integer tensor that [torch.cat] applies when the other
    tensors are floating-point. [Plane8] and [PlaneF] are one channel of a
    decoded image and of a preprocessed one, [CM] what the metrics engine
    returns as a confusion matrix. *)
Context {F Plane8 PlaneF CM : Type}.
Variable of_int : Z -> F.

(** *** Models *)

(** What [model(...)[0]] exposes for the single-stage family. *)
Record Boxes : Type := { data : Tensor2 F }.
Record Results : Type := { boxes : Boxes }.

(** A single-stage model is called as
    [model(img_path, verbose=..., conf=..., device=...)]. *)
Definition YoloModel : Type := string -> bool -> Z -> string -> list Results.

(** One entry of the output of a two-stage model: the dict with the keys
    ['labels'] (64-bit integers), ['boxes'] and ['scores']. *)
Record Detections : Type := {
  d_labels : list Z;
  d_boxes : Tensor2 F;
  d_scores : list F
}.

(** A preprocessed image on a device. *)
Record Input : Type := { planes : list PlaneF; on_device : string }.

(** A two-stage model is a module: its mode flag, which [eval()] clears,
    and its forward pass, which depends on the mode. *)
Record RCNNModel : Type := {
  training : bool;
  forward : bool -> list Input -> list Detections
}.

Definition eval (m : RCNNModel) : RCNNModel :=
  {| training := false; forward := forward m |}.

Definition call (m : RCNNModel) (xs : list Input) : list Detections :=
  forward m (training m) xs.

(** *** The metrics engine and the other collaborators *)

(** The engine as the harness constructs it: the five keyword arguments. *)
Record ObjectDetectionMetrics : Type := {
  m_save_dir : string;
  idx_to_name : gmap Z string;
  detections : list (Tensor2 F);
  ground_truths : list (Tensor2 F);
  m_device : string
}.

Record Collaborators : Type := {
  (* data_utils *)
  get_filename : string -> string;
  list_files_of_a_type : string -> string -> list string;
  (* os.path *)
  os_path_join : string -> string -> string;
  os_path_exists : string -> bool;
  (* image_labelling: the label file, [normalised] *)
  bboxes_from_yolo_labels : string -> bool -> Tensor2 F * list Z;
  (* torchvision: the decoder, and [ToDtype(torch.float, scale=True)]
     followed by [ToPureTensor()], channel by channel *)
  read_image : string -> list Plane8;
  transforms : Plane8 -> PlaneF;
  (* the methods of the metrics engine *)
  get_confusion_matrix : ObjectDetectionMetrics -> F -> bool -> bool -> result CM;
  metrics_ap_per_class : ObjectDetectionMetrics -> bool -> bool -> string -> result (Tensor2 F);
  get_map50 : ObjectDetectionMetrics -> result F;
  get_map50_95 : ObjectDetectionMetrics -> result F
}.

Variable E : Collaborators.

(** *** The attributes of an [Evaluator] *)

Record Evaluator (Mdl : Type) : Type := {
  model : Mdl;
  test_imgs : string;
  test_labels : string;
  device : string;
  class_dict : gmap Z string;
  num_classes : nat;
  save_dir : string;
  preds : list (Tensor2 F);
  gt : list (Tensor2 F);
  metrics : option ObjectDetectionMetrics   (* unset until [__init__] ends *)
}.
Arguments model {Mdl} e.
Arguments test_imgs {Mdl} e.
Arguments test_labels {Mdl} e.
Arguments device {Mdl} e.
Arguments class_dict {Mdl} e.
Arguments num_classes {Mdl} e.
Arguments save_dir {Mdl} e.
Arguments preds {Mdl} e.
Arguments gt {Mdl} e.
Arguments metrics {Mdl} e.

Definition set_model {Mdl} (m : Mdl) (self : Evaluator Mdl) : Evaluator Mdl :=
  {| model := m; test_imgs := test_imgs self; test_labels := test_labels self;
     device := device self; class_dict := class_dict self;
     num_classes := num_classes self; save_dir := save_dir self;
     preds := preds self; gt := gt self; metrics := metrics self |}.

Definition set_preds {Mdl} (ps : list (Tensor2 F)) (self : Evaluator Mdl) : Evaluator Mdl :=
  {| model := model self; test_imgs := test_imgs self; test_labels := test_labels self;
     device := device self; class_dict := class_dict self;
     num_classes := num_classes self; save_dir := save_dir self;
     preds := ps; gt := gt self; metrics := metrics self |}.

Definition set_gt {Mdl} (gs : list (Tensor2 F)) (self : Evaluator Mdl) : Evaluator Mdl :=
  {| model := model self; test_imgs := test_imgs self; test_labels := test_labels self;
     device := device self; class_dict := class_dict self;
     num_classes := num_classes self; save_dir := save_dir self;
     preds := preds self; gt := gs; metrics := metrics self |}.

Definition set_metrics {Mdl} (m : ObjectDetectionMetrics) (self : Evaluator Mdl) : Evaluator Mdl :=
  {| model := model self; test_imgs := test_imgs self; test_labels := test_labels self;
     device := device self; class_dict := class_dict self;
     num_classes := num_classes self; save_dir := save_dir self;
     preds := preds self; gt := gt self; metrics := Some m |}.

(** The abstract method: each subclass is an instance. *)
Class EvaluatorClass (Mdl : Type) : Type := {
  infer_for_one_img : string -> Py (Evaluator Mdl) (Tensor2 F * Tensor2 F)
}.

(** *** [Evaluator.get_labels_for_image] *)

Definition get_labels_for_image {Mdl} (self : Evaluator Mdl) (img_path : string)
  : result (Tensor2 F) :=
  let filename := get_filename E img_path in
  let label_path := os_path_join E (test_labels self) (filename +:+ ".txt") in
  if negb (os_path_exists E label_path)
  then Raise (LabelFileNotFoundError filename)
  else
    let (bboxes, labels) := bboxes_from_yolo_labels E label_path false in
    rbind (as_tensor_int32 labels) (fun labels =>
    let labels := unsqueeze labels in
    cat [bboxes; tmap of_int labels]).

(** *** [Evaluator.__get_preds_and_labels] *)

Definition reads {S A} (f : S -> result A) : Py S A := fun s => (f s, s).

Definition loop_body {Mdl} {cls : EvaluatorClass Mdl} (img_paths : list string) (i : nat)
  : Py (Evaluator Mdl) unit :=
  (img_path <- lift (index img_paths i) ;;
   r <- infer_for_one_img img_path ;;
   let (ground_truths, predictions) := r : Tensor2 F * Tensor2 F in
   modify (fun self => set_preds (preds self ++ [predictions]) self) ;;;
   modify (fun self => set_gt (gt self ++ [ground_truths]) self))%py.

(** The progress bar and the [print] leave the harness alone and are
    left out. *)
Definition __get_preds_and_labels {Mdl} {cls : EvaluatorClass Mdl} : Py (Evaluator Mdl) unit :=
  (modify (set_preds []) ;;;
   modify (set_gt []) ;;;
   img_paths <- gets (fun self => list_files_of_a_type E (test_imgs self) ".png") ;;
   for_each (seq 0 (length img_paths)) (loop_body img_paths))%py.

(** *** [Evaluator.__init__] *)

(** Lines 12 to 21: the attributes before the population pass. *)
Definition attributes {Mdl} (model : Mdl)
    (test_imgs test_labels device : string) (class_dict : gmap Z string)
    (save_dir : string) : Evaluator Mdl :=
  {| model := model; test_imgs := test_imgs; test_labels := test_labels;
     device := device; class_dict := class_dict;
     num_classes := size (dom class_dict); save_dir := save_dir;
     preds := []; gt := []; metrics := None |}.

Definition __init__ {Mdl} {cls : EvaluatorClass Mdl} (model : Mdl)
    (test_imgs test_labels device : string) (class_dict : gmap Z string)
    (save_dir : string) : result (Evaluator Mdl) :=
  let self := attributes model test_imgs test_labels device class_dict save_dir in
  match __get_preds_and_labels self with
  | (Ok _, self) =>
      Ok (set_metrics
            {| m_save_dir := save_dir; idx_to_name := class_dict;
               detections := preds self; ground_truths := gt self;
               m_device := device |} self)
  | (Raise e, _) => Raise e
  end.

(** *** The metric queries *)

(** [self.metrics], once the guard has passed. *)
Definition the_metrics {Mdl A} (self : Evaluator Mdl)
    (k : ObjectDetectionMetrics -> result A) : result A :=
  match metrics self with
  | Some m => k m
  | None => Raise (AttributeError "metrics")
  end.

(** [not xs] on a list. *)
Definition is_empty {A} (xs : list A) : bool :=
  match xs with [] => true | _ => false end.

Definition confusion_matrix {Mdl} (self : Evaluator Mdl)
    (conf_threshold : F) (all_iou plot : bool) : result CM :=
  if is_empty (preds self) && is_empty (gt self)
  then Raise NoDataError
  else the_metrics self (fun m => get_confusion_matrix E m conf_threshold all_iou plot).

Definition ap_per_class {Mdl} (self : Evaluator Mdl)
    (plot plot_all : bool) (prefix : string) : result (Tensor2 F) :=
  if is_empty (preds self) && is_empty (gt self)
  then Raise NoDataError
  else
    let ap := the_metrics self (fun m => metrics_ap_per_class E m plot plot_all prefix) in
    ap.

Definition map50 {Mdl} (self : Evaluator Mdl) : result F :=
  the_metrics self (get_map50 E).

Definition map50_95 {Mdl} (self : Evaluator Mdl) : result F :=
  the_metrics self (get_map50_95 E).

(** *** [YoloEvaluator] *)

#[export] Instance YoloEvaluator : EvaluatorClass YoloModel := {
  infer_for_one_img img_path :=
    (ground_truths <- reads (fun self => get_labels_for_image self img_path) ;;
     results <- gets (fun self => model self img_path false 0 (device self)) ;;
     first <- lift (index results 0) ;;
     let predictions := data (boxes first) in
     ret (ground_truths, predictions))%py
}.

(** *** [RCNNEvaluator] *)

(** Lines 127 to 135: from the model's dict to the [(n, 6)] tensor. The
    labels are 64-bit integers; [torch.cat] promotes them to the element
    type of the boxes and scores. *)
Definition normalize (pred : Detections) : result (Tensor2 F) :=
  let labels := d_labels pred in
  let i := map (fun l => negb (l =? 0)) labels in
  rbind (mask_index2 (d_boxes pred) i) (fun bboxes =>
  rbind (mask_index1 (d_scores pred) i) (fun scores =>
  let scores := unsqueeze scores in
  rbind (mask_index1 labels i) (fun labels =>
  let labels := tmap (fun l => sub64 l 1) (unsqueeze labels) in
  cat [bboxes; scores; tmap of_int labels]))).

(** [torch.no_grad()] switches gradient tracking off and back on around the
    forward pass; no attribute of the harness or of the model records it. *)
#[export] Instance RCNNEvaluator : EvaluatorClass RCNNModel := {
  infer_for_one_img img_path :=
    (modify (fun self => set_model (eval (model self)) self) ;;;
     let image := read_image E img_path in
     let x := map (transforms E) image in
     x <- gets (fun self => {| planes := take 3 x; on_device := device self |}) ;;
     predictions <- gets (fun self => call (model self) [x]) ;;
     pred <- lift (index predictions 0) ;;
     predictions <- lift (normalize pred) ;;
     ground_truths <- reads (fun self => get_labels_for_image self img_path) ;;
     ret (ground_truths, predictions))%py
}.

End Harness.

Arguments model {F Mdl} e.
Arguments test_imgs {F Mdl} e.
Arguments test_labels {F Mdl} e.
Arguments device {F Mdl} e.
Arguments class_dict {F Mdl} e.
Arguments num_classes {F Mdl} e.
Arguments save_dir {F Mdl} e.
Arguments preds {F Mdl} e.
Arguments gt {F Mdl} e.
Arguments metrics {F Mdl} e.

(** ** The population pass, image by image *)

Section Pass.

Context {F : Type} {Mdl : Type} {cls : @EvaluatorClass F Mdl}.

(** One turn of the loop of [__get_preds_and_labels], once [img_paths[i]]
    has been read. *)
Definition turn (img_path : string) : Py (@Evaluator F Mdl) unit :=
  (r <- infer_for_one_img img_path ;;
   let (ground_truths, predictions) := r : Tensor2 F * Tensor2 F in
   modify (fun self => set_preds (preds self ++ [predictions]) self) ;;;
   modify (fun self => set_gt (gt self ++ [ground_truths]) self))%py.

(** The loop over the images themselves rather than over their indices. *)
Fixpoint pass (img_paths : list string) : Py (@Evaluator F Mdl) unit :=
  match img_paths with
  | [] => ret tt
  | img_path :: rest => bind (turn img_path) (fun _ => pass rest)
  end.

(** Two harnesses that differ at most in the accumulated sequences and in
    the state of the model, up to what one inference does to it. *)
Definition same_frame (touch : Mdl -> Mdl) (s t : @Evaluator F Mdl) : Prop :=
  test_imgs s = test_imgs t /\ test_labels s = test_labels t /\
  device s = device t /\ class_dict s = class_dict t /\
  num_classes s = num_classes t /\ save_dir s = save_dir t /\
  metrics s = metrics t /\ touch (model s) = touch (model t).

End Pass.

(** The detections of a two-stage output taken one by one, as triples. *)
Fixpoint zip3 {A B C} (a : list A) (b : list B) (c : list C) : list (A * B * C) :=
  match a, b, c with
  | x :: a', y :: b', z :: c' => (x, y, z) :: zip3 a' b' c'
  | _, _, _ => []
  end.

(** A two-stage output whose three arrays are parallel, with four box
    columns, and whose labels are 64-bit integers that [- 1] does not wrap. *)
Definition parallel {F} (pred : @Detections F) : Prop :=
  nrows (d_boxes pred) = length (d_labels pred) /\
  length (d_scores pred) = length (d_labels pred) /\
  ncols (d_boxes pred) = 4%nat /\
  well_shaped (d_boxes pred).

Definition label_range (l : Z) : Prop := - 2 ^ 63 < l < 2 ^ 63.

(** The row [normalize] is to build from one detection. *)
Definition row6 {F} (of_int : Z -> F) (d : list F * F * Z) : list F :=
  let '(box, score, label) := d in box ++ [score; of_int (label - 1)].

Definition foreground {F} (d : list F * F * Z) : bool :=
  let '(_, _, label) := d in negb (label =? 0).

(** ** A small test set

    One image directory with two images of which only the first has a label
    file, one with the first image alone, and an empty one; a single-stage
    and a two-stage model over them. Tensor entries are rationals. *)

Module Demo.

Definition q (n : Z) : Q := inject_Z n.

Definition env : @Collaborators Q unit unit unit := {|
  get_filename p :=
    if String.eqb p "imgs/a.png" then "a"
    else if String.eqb p "imgs/b.png" then "b" else p;
  list_files_of_a_type dir ext :=
    if String.eqb ext ".png" then
      if String.eqb dir "one" then ["imgs/a.png"]
      else if String.eqb dir "two" then ["imgs/a.png"; "imgs/b.png"]
      else []
    else [];
  os_path_join a b := a +:+ "/" +:+ b;
  os_path_exists p := String.eqb p "labels/a.txt";
  bboxes_from_yolo_labels _ _ :=
    ({| ncols := 4; rows := [[q 12; q 20; q 52; q 60]] |}, [2]);
  read_image _ := [tt; tt; tt; tt];
  transforms _ := tt;
  get_confusion_matrix _ _ _ _ := Ok tt;
  metrics_ap_per_class m _ _ _ :=
    Ok {| ncols := 0; rows := [] |};
  get_map50 m := Ok (q (Z.of_nat (length (detections m))));
  get_map50_95 m := Ok (q (Z.of_nat (length (ground_truths m))))
|}.

Definition classes : gmap Z string := {[ 0 := "a"; 1 := "b"; 2 := "c" ]}.

(** The label file of [imgs/a.png], as [get_labels_for_image] returns it. *)
Definition gt_a : Tensor2 Q :=
  {| ncols := 5; rows := [[q 12; q 20; q 52; q 60; q 2]] |}.

(** A single-stage model: one result, two candidate boxes. *)
Definition yolo_out : Tensor2 Q :=
  {| ncols := 6;
     rows := [[q 10; q 10; q 50; q 50; 9 # 10; q 2];
              [q 0; q 0; q 5; q 5; 1 # 100; q 0]] |}.

Definition yolo : @YoloModel Q :=
  fun _ _ _ _ => [ {| boxes := {| data := yolo_out |} |} ].

(** A two-stage model: a background detection between two objects. *)
Definition rcnn_out : @Detections Q := {|
  d_labels := [3; 0; 1];
  d_boxes := {| ncols := 4;
                rows := [[q 10; q 10; q 50; q 50];
                         [q 1; q 1; q 2; q 2];
                         [q 0; q 0; q 5; q 5]] |};
  d_scores := [9 # 10; 5 # 10; 1 # 100]
|}.

Definition rcnn_forward (out : @Detections Q) (mode : bool) (xs : list (@Input unit))
  : list (@Detections Q) :=
  if mode then [] else map (fun _ => out) xs.

Definition rcnn : @RCNNModel Q unit :=
  {| training := true; forward := rcnn_forward rcnn_out |}.

(** A two-stage model that sees background only. *)
Definition background_only : @Detections Q := {|
  d_labels := [0; 0];
  d_boxes := {| ncols := 4;
                rows := [[q 1; q 1; q 2; q 2]; [q 0; q 0; q 5; q 5]] |};
  d_scores := [5 # 10; 1 # 100]
|}.

Definition rcnn_blind : @RCNNModel Q unit :=
  {| training := false; forward := rcnn_forward background_only |}.

(** A harness as [__init__] leaves it before the population pass. *)
Definition fresh {Mdl} (m : Mdl) (imgs : string) : @Evaluator Q Mdl :=
  {| model := m; test_imgs := imgs; test_labels := "labels"; device := "cpu";
     class_dict := classes; num_classes := 3; save_dir := "out";
     preds := []; gt := []; metrics := None |}.

(** A state with one prediction and no ground truth, the engine set. *)
Definition lopsided : @Evaluator Q YoloModel :=
  {| model := yolo; test_imgs := "one"; test_labels := "labels"; device := "cpu";
     class_dict := classes; num_classes := 3; save_dir := "out";
     preds := [yolo_out]; gt := [];
     metrics := Some {| m_save_dir := "out"; idx_to_name := classes;
                        detections := [yolo_out]; ground_truths := [];
                        m_device := "cpu" |} |}.

End Demo.

(** ** Notions used in the statements *)

(** The prediction of an image on which nothing but background is seen. *)
Definition no_rows {F} : Tensor2 F := {| ncols := 6; rows := [] |}.

(** The input [RCNNEvaluator.infer_for_one_img] hands to the model. *)
Definition rcnn_input {F Plane8 PlaneF CM} (E : @Collaborators F Plane8 PlaneF CM)
    (img_path device : string) : @Input PlaneF :=
  {| planes := take 3 (map (transforms E) (read_image E img_path));
     on_device := device |}.

(** The path at which [get_labels_for_image] looks for the labels. *)
Definition label_path {F Plane8 PlaneF CM} (E : @Collaborators F Plane8 PlaneF CM)
    (test_labels img_path : string) : string :=
  os_path_join E test_labels (get_filename E img_path +:+ ".txt").

(** A harness that holds nothing but a model, a device and a label
    directory. *)
Definition bare {F Mdl} (m : Mdl) (device test_labels : string) : @Evaluator F Mdl :=
  attributes m "" test_labels device ∅ "".

(** The state of the sequences after a population pass over [img_paths]:
    equal lengths, and when the pass has ended, entry [i] of each is what
    the inference returns for image [i]. *)
Definition aligned {F Mdl} {cls : @EvaluatorClass F Mdl} (img_paths : list string)
    (r : result unit) (s : @Evaluator F Mdl) : Prop :=
  length (preds s) = length (gt s) /\
  (r = Ok tt ->
   length (preds s) = length img_paths /\
   forall i p, img_paths !! i = Some p ->
     exists g q, fst (infer_for_one_img p s) = Ok (g, q) /\
                 preds s !! i = Some q /\ gt s !! i = Some g).

(** The row [normalize] builds from one detection, whatever the label:
    the subtraction is the 64-bit one. *)
Definition row_wrapped {F} (of_int : Z -> F) (d : list F * F * Z) : list F :=
  let '(box, score, label) := d in box ++ [score; of_int (sub64 label 1)].

(** The engine [__init__] builds for a harness. *)
Definition engine_of {F Mdl} (h : @Evaluator F Mdl) : @ObjectDetectionMetrics F :=
  {| m_save_dir := save_dir h; idx_to_name := class_dict h;
     detections := preds h; ground_truths := gt h; m_device := device h |}.

(** Every image of the listing of [imgs] is one on which the inference of a
    harness just built succeeds. *)
Definition all_infer {F Plane8 PlaneF CM} (E : @Collaborators F Plane8 PlaneF CM)
    {Mdl} (cls : @EvaluatorClass F Mdl) (m : Mdl)
    (imgs labels dev : string) (cd : gmap Z string) (sd : string) : Prop :=
  Forall (fun p => is_Ok (fst (infer_for_one_img p
                                 (attributes m imgs labels dev cd sd))) = true)
         (list_files_of_a_type E imgs ".png").

(** [__init__] returns a harness exactly when every inference succeeds. *)
Definition init_total {F Plane8 PlaneF CM} (E : @Collaborators F Plane8 PlaneF CM)
    {Mdl} (cls : @EvaluatorClass F Mdl) : Prop :=
  forall m imgs labels dev cd sd,
    is_Ok (__init__ E m imgs labels dev cd sd) = true
    <-> all_infer E cls m imgs labels dev cd sd.

(** The harness [__init__] returns holds the arguments it was given, one
    entry per image in each sequence, and an engine over these sequences. *)
Definition init_contract {F Plane8 PlaneF CM} (E : @Collaborators F Plane8 PlaneF CM)
    {Mdl} (cls : @EvaluatorClass F Mdl) : Prop :=
  forall m imgs labels dev cd sd h,
    __init__ E m imgs labels dev cd sd = Ok h ->
    test_imgs h = imgs /\ test_labels h = labels /\ device h = dev /\
    class_dict h = cd /\ save_dir h = sd /\ num_classes h = size (dom cd) /\
    metrics h = Some (engine_of h) /\
    length (preds h) = length (list_files_of_a_type E imgs ".png") /\
    length (gt h) = length (list_files_of_a_type E imgs ".png").

(** On a harness built over at least one image the four queries return
    what the engine over the harness's sequences returns. *)
Definition queries_delegate {F Plane8 PlaneF CM} (E : @Collaborators F Plane8 PlaneF CM)
    {Mdl} (cls : @EvaluatorClass F Mdl) : Prop :=
  forall m imgs labels dev cd sd h conf_threshold all_iou plot plot_all prefix,
    __init__ E m imgs labels dev cd sd = Ok h ->
    list_files_of_a_type E imgs ".png" <> [] ->
    confusion_matrix E h conf_threshold all_iou plot
    = get_confusion_matrix E (engine_of h) conf_threshold all_iou plot /\
    ap_per_class E h plot plot_all prefix
    = metrics_ap_per_class E (engine_of h) plot plot_all prefix /\
    map50 E h = get_map50 E (engine_of h) /\
    map50_95 E h = get_map50_95 E (engine_of h).

(** A pass that aborts at image [p] raises what the inference raised there
    and leaves in both sequences the entries of the images before [p]. *)
Definition abort_keeps_prefix {F Plane8 PlaneF CM} (E : @Collaborators F Plane8 PlaneF CM)
    {Mdl} (cls : @EvaluatorClass F Mdl) : Prop :=
  forall (s : @Evaluator F Mdl) l1 p l2 e,
    list_files_of_a_type E (test_imgs s) ".png" = l1 ++ p :: l2 ->
    Forall (fun p' => is_Ok (fst (infer_for_one_img p' s)) = true) l1 ->
    fst (infer_for_one_img p s) = Raise e ->
    fst (__get_preds_and_labels E s) = Raise e /\
    length (preds (snd (__get_preds_and_labels E s))) = length l1 /\
    length (gt (snd (__get_preds_and_labels E s))) = length l1 /\
    forall i p', l1 !! i = Some p' ->
      exists g q, fst (infer_for_one_img p' s) = Ok (g, q) /\
                  preds (snd (__get_preds_and_labels E s)) !! i = Some q /\
                  gt (snd (__get_preds_and_labels E s)) !! i = Some g.

(** What a population pass leaves as it was. *)
Definition pass_keeps {F Plane8 PlaneF CM} (E : @Collaborators F Plane8 PlaneF CM)
    {Mdl} (cls : @EvaluatorClass F Mdl) (s : @Evaluator F Mdl) : Prop :=
  let s' := snd (__get_preds_and_labels E s) in
  test_imgs s' = test_imgs s /\ test_labels s' = test_labels s /\
  device s' = device s /\ class_dict s' = class_dict s /\
  num_classes s' = num_classes s /\ save_dir s' = save_dir s /\
  metrics s' = metrics s.

(** Further models for the test set: one of each family that returns no
    result at all, and a two-stage output whose arrays are not parallel. *)
Module Edge.

Definition yolo_mute : @YoloModel Q := fun _ _ _ _ => [].

Definition rcnn_mute : @RCNNModel Q unit :=
  {| training := true; forward := fun _ _ => [] |}.

Definition ragged : @Detections Q := {|
  d_labels := [1; 2];
  d_boxes := {| ncols := 4; rows := [[Demo.q 1; Demo.q 1; Demo.q 2; Demo.q 2]] |};
  d_scores := [5 # 10; 1 # 100]
|}.

(** Five box columns and the least 64-bit label. *)
Definition wide : @Detections Q := {|
  d_labels := [- 2 ^ 63; 0];
  d_boxes := {| ncols := 5;
                rows := [[Demo.q 1; Demo.q 1; Demo.q 2; Demo.q 2; Demo.q 7];
                         [Demo.q 0; Demo.q 0; Demo.q 5; Demo.q 5; Demo.q 7]] |};
  d_scores := [5 # 10; 1 # 100]
|}.

End Edge.

(** * Properties *)

(** ** Tensors *)

Lemma select_length {A B} (xs : list A) (ys : list B) (m : list bool) :
  length xs = length m -> length ys = length m ->
  length (select xs m) = length (select ys m).
Proof.
  revert xs ys; induction m as [|b m IH]; intros [|x xs] [|y ys]; simpl;
    intros Hx Hy; try congruence.
  destruct b; simpl; [f_equal|]; apply IH; lia.
Qed.

Lemma wrap64_id (x : Z) : int64 x -> wrap 64 x = x.
Proof.
  unfold int64, wrap; intros H.
  change (64 - 1) with 63.
  rewrite Z.mod_small; lia.
Qed.

Lemma sub64_label (l : Z) : label_range l -> sub64 l 1 = l - 1.
Proof.
  unfold label_range; intros H; apply wrap64_id; unfold int64; lia.
Qed.

Lemma as_tensor_int32_ok (xs : list Z) :
  Forall int32 xs -> as_tensor_int32 xs = Ok xs.
Proof.
  intros H; unfold as_tensor_int32.
  replace (forallb in_int32 xs) with true; [reflexivity|].
  symmetry; apply forallb_forall; intros x Hx.
  rewrite List.Forall_forall in H; specialize (H x Hx).
  unfold int32 in H; unfold in_int32.
  apply andb_true_iff; split; [apply Z.leb_le | apply Z.ltb_lt]; lia.
Qed.

Lemma hcat_length {A} (a b : list (list A)) :
  length a = length b -> length (hcat a b) = length a.
Proof.
  revert b; induction a as [|r a IH]; intros [|r' b]; simpl; intros H; try congruence.
  f_equal; apply IH; lia.
Qed.

Lemma nat_eqb_refl' (a b : nat) : a = b -> Nat.eqb a b = true.
Proof. intros ->; apply Nat.eqb_refl. Qed.

(** ** The two-stage normalizer *)

Section Normalizer.

Context {F : Type} (of_int : Z -> F).

(** The three selections of [normalize] and the two concatenations amount
    to one filter over the detections. *)
Lemma selections_filter (ls : list Z) : forall (bs : list (list F)) (ss : list F),
  length bs = length ls -> length ss = length ls ->
  Forall label_range ls ->
  let i := map (fun l => negb (l =? 0)) ls in
  hcat (select bs i)
       (hcat (map (fun x => [x]) (select ss i))
             (map (map of_int)
                  (map (map (fun l => sub64 l 1))
                       (map (fun x => [x]) (select ls i)))))
  = map (row6 of_int) (List.filter foreground (zip3 bs ss ls)).
Proof.
  induction ls as [|l ls IH]; intros [|b bs] [|s ss] Hb Hs Hr; simpl in *;
    try congruence; try reflexivity.
  inversion Hr as [|? ? Hl Hls]; subst.
  destruct (l =? 0) eqn:E0; simpl.
  - apply IH; auto.
  - rewrite (sub64_label l Hl). f_equal. apply IH; auto.
Qed.

Lemma kept_rows_six (bs : list (list F)) (ss : list F) (ls : list Z) :
  Forall (fun r => length r = 4%nat) bs ->
  Forall (fun r => length r = 6%nat)
         (map (row6 of_int) (List.filter foreground (zip3 bs ss ls))).
Proof.
  intros H; revert ss ls; induction H as [|b bs Hb _ IH]; intros [|s ss] [|l ls];
    simpl; try constructor.
  destruct (negb (l =? 0)); simpl; [constructor|]; auto.
  rewrite length_app; simpl; lia.
Qed.

End Normalizer.

(** The normalizer as one filter over the detections. *)
Lemma normalize_filter {F} (of_int : Z -> F) (pred : @Detections F) :
  parallel pred ->
  Forall label_range (d_labels pred) ->
  let kept :=
    List.filter foreground (zip3 (rows (d_boxes pred)) (d_scores pred) (d_labels pred)) in
  normalize of_int pred = Ok {| ncols := 6; rows := map (row6 of_int) kept |} /\
  Forall (fun r => length r = 6%nat) (map (row6 of_int) kept) /\
  Forall (fun d => snd d <> 0) kept.
Proof.
  intros (Hb & Hs & Hc & Hw) Hr kept.
  split; [|split].
  - unfold normalize, mask_index2, mask_index1.
    set (i := map (fun l => negb (l =? 0)) (d_labels pred)).
    assert (Hi : length i = length (d_labels pred)) by (unfold i; apply length_map).
    rewrite (nat_eqb_refl' (nrows (d_boxes pred)) (length i)) by lia.
    rewrite (nat_eqb_refl' (length (d_scores pred)) (length i)) by lia.
    rewrite (nat_eqb_refl' (length (d_labels pred)) (length i)) by lia.
    cbn [rbind cat]. unfold nrows, tmap, unsqueeze. cbn [ncols rows].
    rewrite !length_map.
    rewrite (nat_eqb_refl' (length (select (d_scores pred) i))
                          (length (select (d_labels pred) i)))
      by (apply select_length; lia).
    cbn [rbind ncols rows nrows].
    rewrite hcat_length by (rewrite !length_map; apply select_length; lia).
    rewrite length_map.
    rewrite (nat_eqb_refl' (length (select (rows (d_boxes pred)) i))
                          (length (select (d_scores pred) i)))
      by (apply select_length; unfold nrows in Hb; lia).
    rewrite Hc. f_equal. f_equal.
    apply selections_filter; auto.
  - apply kept_rows_six. unfold well_shaped in Hw. rewrite Hc in Hw. exact Hw.
  - apply List.Forall_forall. intros [[b s] l] Hin.
    apply List.filter_In in Hin as [_ Hfg]. simpl in *.
    intros ->. discriminate.
Qed.

Lemma filter_background {F} (bs : list (list F)) (ss : list F) (ls : list Z) :
  Forall (fun l => l = 0) ls ->
  List.filter foreground (zip3 bs ss ls) = [].
Proof.
  intros H; revert bs ss; induction H as [|l ls Hl _ IH]; intros [|b bs] [|s ss];
    simpl; try reflexivity.
  subst l; simpl; apply IH.
Qed.

Lemma normalize_background {F} (of_int : Z -> F) (pred : @Detections F) :
  parallel pred ->
  Forall (fun l => l = 0) (d_labels pred) ->
  normalize of_int pred = Ok no_rows.
Proof.
  intros Hp H0.
  assert (Hr : Forall label_range (d_labels pred)).
  { eapply Forall_impl; [exact H0|]. intros l ->. unfold label_range. lia. }
  destruct (normalize_filter of_int pred Hp Hr) as [Hn _].
  rewrite Hn, filter_background by exact H0. reflexivity.
Qed.

(** C2. For a two-stage output with parallel arrays, the normalizer returns
    the [(n, 6)] tensor whose rows are, in the order of the model output,
    the detections whose label is not [0], each as
    [x1, y1, x2, y2, score, label - 1]: nothing labelled [0] is kept and
    nothing else is dropped. *)
Theorem normalize_keeps_foreground {F} (of_int : Z -> F) (pred : @Detections F) :
  parallel pred ->
  Forall label_range (d_labels pred) ->
  let kept :=
    List.filter foreground (zip3 (rows (d_boxes pred)) (d_scores pred) (d_labels pred)) in
  normalize of_int pred = Ok {| ncols := 6; rows := map (row6 of_int) kept |} /\
  Forall (fun r => length r = 6%nat) (map (row6 of_int) kept) /\
  Forall (fun d => snd d <> 0) kept.
Proof. apply normalize_filter. Qed.

Lemma normalize_keeps_foreground_witness :
  parallel Demo.rcnn_out /\
  Forall label_range (d_labels Demo.rcnn_out) /\
  normalize inject_Z Demo.rcnn_out =
  Ok {| ncols := 6;
        rows := [[Demo.q 10; Demo.q 10; Demo.q 50; Demo.q 50; 9 # 10; Demo.q 2];
                 [Demo.q 0; Demo.q 0; Demo.q 5; Demo.q 5; 1 # 100; Demo.q 0]] |}.
Proof.
  assert (Hp : parallel Demo.rcnn_out).
  { unfold parallel, well_shaped; simpl; repeat split; repeat constructor. }
  assert (Hr : Forall label_range (d_labels Demo.rcnn_out)).
  { simpl; repeat constructor; unfold label_range; lia. }
  split; [exact Hp | split; [exact Hr|]].
  exact (proj1 (normalize_keeps_foreground inject_Z Demo.rcnn_out Hp Hr)).
Defined.

(** ** The population pass *)

Lemma evaluator_eq {F Mdl} (s t : @Evaluator F Mdl) :
  model s = model t -> test_imgs s = test_imgs t ->
  test_labels s = test_labels t -> device s = device t ->
  class_dict s = class_dict t -> num_classes s = num_classes t ->
  save_dir s = save_dir t -> preds s = preds t -> gt s = gt t ->
  metrics s = metrics t -> s = t.
Proof.
  destruct s, t; simpl; intros; subst; reflexivity.
Qed.

Section PassFacts.

Context {F Plane8 PlaneF CM : Type} (E : @Collaborators F Plane8 PlaneF CM).
Context {Mdl : Type} {cls : @EvaluatorClass F Mdl}.

Abbreviation self_t := (@Evaluator F Mdl).

(** The loop over indices reads the images one after the other. *)
Lemma loop_is_pass (l2 : list string) : forall (l1 : list string) (s : self_t),
  for_each (seq (length l1) (length l2)) (loop_body (l1 ++ l2)) s = pass l2 s.
Proof.
  induction l2 as [|p l2 IH]; intros l1 s; [reflexivity|].
  cbn [length seq for_each pass].
  assert (Hb : forall t : self_t, loop_body (l1 ++ p :: l2) (length l1) t = turn p t).
  { intros t. unfold loop_body, turn, bind at 1, lift, index.
    rewrite lookup_app_r by lia. rewrite Nat.sub_diag. reflexivity. }
  change (match loop_body (l1 ++ p :: l2) (length l1) s with
          | (Ok _, s') => for_each (seq (S (length l1)) (length l2))
                                   (loop_body (l1 ++ p :: l2)) s'
          | (Raise e, s') => (Raise e, s')
          end
          = match turn p s with
            | (Ok _, s') => pass l2 s'
            | (Raise e, s') => (Raise e, s')
            end).
  rewrite Hb.
  destruct (turn p s) as [[[]|e] s1]; [|reflexivity].
  specialize (IH (l1 ++ [p]) s1).
  rewrite length_app in IH. simpl in IH. rewrite Nat.add_1_r in IH.
  rewrite <- app_assoc in IH. exact IH.
Qed.

Lemma populate_is_pass (s : self_t) :
  __get_preds_and_labels E s
  = pass (list_files_of_a_type E (test_imgs s) ".png") (set_gt [] (set_preds [] s)).
Proof.
  unfold __get_preds_and_labels, bind, modify, gets. cbn [test_imgs set_gt set_preds].
  apply (loop_is_pass _ []).
Qed.

(** What one inference does: [touch] on the model and nothing else, with a
    result that only depends on the frame. *)
Variable touch : Mdl -> Mdl.
Hypothesis touch_idem : forall m, touch (touch m) = touch m.
Hypothesis infer_state : forall p (s : self_t),
  snd (infer_for_one_img p s) = set_model (touch (model s)) s.
Hypothesis infer_result : forall p (s t : self_t),
  same_frame touch s t ->
  fst (infer_for_one_img p s) = fst (infer_for_one_img p t).

Lemma same_frame_refl (s : self_t) : same_frame touch s s.
Proof. unfold same_frame; repeat split. Qed.

Lemma same_frame_sym (s t : self_t) : same_frame touch s t -> same_frame touch t s.
Proof. unfold same_frame; intuition congruence. Qed.

Lemma same_frame_trans (s t u : self_t) :
  same_frame touch s t -> same_frame touch t u -> same_frame touch s u.
Proof. unfold same_frame; intuition congruence. Qed.

Lemma turn_spec (p : string) (s : self_t) :
  turn p s =
  match fst (infer_for_one_img p s) with
  | Ok (g, q) =>
      (Ok tt, set_gt (gt s ++ [g]) (set_preds (preds s ++ [q])
                                      (set_model (touch (model s)) s)))
  | Raise e => (Raise e, set_model (touch (model s)) s)
  end.
Proof.
  unfold turn, bind at 1. specialize (infer_state p s).
  destruct (infer_for_one_img p s) as [[[g q]|e] s1]; simpl in *; subst s1;
    reflexivity.
Qed.

Lemma turn_frame (p : string) (s : self_t) : same_frame touch s (snd (turn p s)).
Proof.
  rewrite turn_spec.
  destruct (fst (infer_for_one_img p s)) as [[g q]|e]; unfold same_frame; simpl;
    rewrite touch_idem; repeat split.
Qed.

Lemma pass_frame (ps : list string) : forall s : self_t,
  same_frame touch s (snd (pass ps s)).
Proof.
  induction ps as [|p ps IH]; intros s; [apply same_frame_refl|].
  cbn [pass]. unfold bind. pose proof (turn_frame p s) as Ht.
  destruct (turn p s) as [[[]|e] s1]; simpl in *; [|exact Ht].
  eapply same_frame_trans; [exact Ht | apply IH].
Qed.

Lemma pass_result (ps : list string) : forall s t : self_t,
  same_frame touch s t -> fst (pass ps s) = fst (pass ps t).
Proof.
  induction ps as [|p ps IH]; intros s t Hst; [reflexivity|].
  cbn [pass]. unfold bind.
  pose proof (turn_frame p s) as Hs. pose proof (turn_frame p t) as Ht.
  rewrite !turn_spec in *. rewrite <- (infer_result p s t Hst) in *.
  destruct (fst (infer_for_one_img p s)) as [[g q]|e]; [|reflexivity].
  simpl in Hs, Ht. apply IH.
  eapply same_frame_trans; [apply same_frame_sym; exact Hs|].
  eapply same_frame_trans; [exact Hst | exact Ht].
Qed.

Lemma pass_model (ps : list string) : forall s : self_t,
  model (snd (pass ps s)) = match ps with [] => model s | _ => touch (model s) end.
Proof.
  induction ps as [|p ps IH]; intros s; [reflexivity|].
  cbn [pass]. unfold bind. rewrite turn_spec.
  destruct (fst (infer_for_one_img p s)) as [[g q]|e]; [|reflexivity].
  rewrite IH. destruct ps; simpl; [reflexivity | apply touch_idem].
Qed.

(** Both sequences grow by the same number of entries, aborted or not. *)
Lemma pass_lengths (ps : list string) : forall s : self_t,
  length (preds s) = length (gt s) ->
  length (preds (snd (pass ps s))) = length (gt (snd (pass ps s))).
Proof.
  induction ps as [|p ps IH]; intros s Hs; [exact Hs|].
  cbn [pass]. unfold bind. rewrite turn_spec.
  destruct (fst (infer_for_one_img p s)) as [[g q]|e]; [|exact Hs].
  apply IH. simpl. rewrite !length_app. simpl. lia.
Qed.

(** A pass that ends has appended, for each image in turn, what the
    inference returns for it. *)
Lemma pass_entries (ps : list string) : forall s : self_t,
  fst (pass ps s) = Ok tt ->
  exists gs qs,
    preds (snd (pass ps s)) = preds s ++ qs /\
    gt (snd (pass ps s)) = gt s ++ gs /\
    length qs = length ps /\ length gs = length ps /\
    forall i p, ps !! i = Some p ->
      exists g q, fst (infer_for_one_img p s) = Ok (g, q) /\
                  qs !! i = Some q /\ gs !! i = Some g.
Proof.
  induction ps as [|p ps IH]; intros s Hok.
  - exists [], []. simpl. rewrite !app_nil_r. repeat split; auto.
    intros i p Hp. rewrite lookup_nil in Hp. discriminate.
  - cbn [pass] in *. unfold bind in *.
    pose proof (turn_frame p s) as Hfr. rewrite turn_spec in *.
    destruct (fst (infer_for_one_img p s)) as [[g q]|e] eqn:Hp; [|discriminate].
    simpl in Hfr.
    destruct (IH _ Hok) as (gs & qs & Hq & Hg & Hlq & Hlg & Hall).
    exists (g :: gs), (q :: qs). simpl in Hq, Hg.
    rewrite Hq, Hg, <- !app_assoc. simpl. repeat split; auto.
    intros [|i] p' Hp'; simpl in Hp'.
    + inversion Hp'; subst p'. exists g, q. auto.
    + destruct (Hall i p' Hp') as (g' & q' & Hi & Hqi & Hgi).
      exists g', q'. rewrite (infer_result p' _ _ Hfr). auto.
Qed.

(** The first image whose inference raises aborts the pass. *)
Lemma pass_raises (l1 : list string) : forall (s : self_t) p l2 e,
  Forall (fun p' => is_Ok (fst (infer_for_one_img p' s)) = true) l1 ->
  fst (infer_for_one_img p s) = Raise e ->
  fst (pass (l1 ++ p :: l2) s) = Raise e.
Proof.
  induction l1 as [|p1 l1 IH]; intros s p l2 e Hall Hp.
  - cbn [app pass]. unfold bind. rewrite turn_spec, Hp. reflexivity.
  - cbn [app pass]. unfold bind.
    pose proof (turn_frame p1 s) as Hfr. rewrite turn_spec in *.
    inversion Hall as [|? ? H1 Hrest]; subst.
    destruct (fst (infer_for_one_img p1 s)) as [[g q]|e1]; [|discriminate].
    simpl in Hfr. apply IH.
    + eapply Forall_impl; [exact Hrest|]. intros p' Hp'; simpl in Hp'.
      rewrite <- (infer_result p' _ _ Hfr). exact Hp'.
    + rewrite <- (infer_result p _ _ Hfr). exact Hp.
Qed.

(** *** The whole of [__get_preds_and_labels] and of [__init__] *)

Abbreviation populate := (__get_preds_and_labels E).
Abbreviation listing s := (list_files_of_a_type E (test_imgs s) ".png").

Lemma cleared_frame (s : self_t) : same_frame touch s (set_gt [] (set_preds [] s)).
Proof. unfold same_frame; simpl; repeat split. Qed.

Lemma populate_frame (s : self_t) : same_frame touch s (snd (populate s)).
Proof.
  rewrite populate_is_pass.
  eapply same_frame_trans; [apply cleared_frame | apply pass_frame].
Qed.

Lemma populate_aligned (s : self_t) :
  aligned (listing s) (fst (populate s)) (snd (populate s)).
Proof.
  rewrite populate_is_pass. set (s0 := set_gt [] (set_preds [] s)).
  split.
  - apply pass_lengths. reflexivity.
  - intros Hok.
    destruct (pass_entries _ s0 Hok) as (gs & qs & Hq & Hg & Hlq & Hlg & Hall).
    simpl in Hq, Hg. split; [rewrite Hq; exact Hlq|].
    intros i p Hp. destruct (Hall i p Hp) as (g & q & Hi & Hqi & Hgi).
    exists g, q. rewrite Hq, Hg.
    rewrite <- (infer_result p s0 _ (pass_frame _ s0)). auto.
Qed.

Lemma populate_entry (s : self_t) i p g q :
  listing s !! i = Some p ->
  fst (populate s) = Ok tt ->
  fst (infer_for_one_img p s) = Ok (g, q) ->
  preds (snd (populate s)) !! i = Some q /\ gt (snd (populate s)) !! i = Some g.
Proof.
  intros Hp Hok Hi.
  destruct (populate_aligned s) as [_ Hal].
  destruct (Hal Hok) as [_ Hall].
  destruct (Hall i p Hp) as (g' & q' & Hi' & Hq & Hg).
  rewrite <- (infer_result p s _ (populate_frame s)) in Hi'.
  rewrite Hi in Hi'. inversion Hi'; subst. auto.
Qed.

(** A second pass over a populated harness rebuilds the same state. *)
Lemma populate_repeat (s : self_t) :
  fst (populate s) = Ok tt ->
  populate (snd (populate s)) = (Ok tt, snd (populate s)).
Proof.
  intros Hok. set (s1 := snd (populate s)).
  pose proof (populate_frame s) as Hfr. fold s1 in Hfr.
  assert (Hfr1 : same_frame touch s1 (snd (populate s1))) by apply populate_frame.
  assert (Hls : listing s1 = listing s)
    by (destruct Hfr as (Hi & _); rewrite <- Hi; reflexivity).
  assert (Hm1 : model s1 = match listing s with
                           | [] => model s
                           | _ => touch (model s)
                           end).
  { unfold s1. rewrite (populate_is_pass s), pass_model. reflexivity. }
  assert (Hm : model (snd (populate s1)) = model s1).
  { rewrite (populate_is_pass s1), pass_model, Hls. cbn [model set_gt set_preds].
    destruct (listing s); [reflexivity | rewrite Hm1; apply touch_idem]. }
  clear Hm1.
  assert (Hok1 : fst (populate s1) = Ok tt).
  { rewrite populate_is_pass, Hls.
    rewrite populate_is_pass in Hok. rewrite <- Hok. apply pass_result.
    eapply same_frame_trans; [apply same_frame_sym, cleared_frame|].
    eapply same_frame_trans; [apply same_frame_sym, Hfr|].
    apply cleared_frame. }
  destruct (populate_aligned s) as [_ Ha]. destruct (Ha Hok) as [Hlen Hall].
  destruct (populate_aligned s1) as [_ Ha1]. destruct (Ha1 Hok1) as [Hlen1 Hall1].
  fold s1 in Hlen, Hall. rewrite Hls in Hlen1, Hall1.
  assert (Hpg : preds (snd (populate s1)) = preds s1 /\ gt (snd (populate s1)) = gt s1).
  { destruct (populate_aligned s) as [Hl0 _]. destruct (populate_aligned s1) as [Hl1 _].
    fold s1 in Hl0.
    split; apply list_eq; intros i;
      destruct (listing s !! i) as [p|] eqn:Hp.
    - destruct (Hall i p Hp) as (g & q & Hi & Hq & Hg).
      destruct (Hall1 i p Hp) as (g1 & q1 & Hi1 & Hq1 & Hg1).
      rewrite <- (infer_result p s1 _ Hfr1), Hi in Hi1. inversion Hi1; subst.
      rewrite Hq, Hq1. reflexivity.
    - apply lookup_ge_None in Hp.
      rewrite (proj2 (lookup_ge_None _ i)) by lia.
      rewrite (proj2 (lookup_ge_None _ i)) by lia. reflexivity.
    - destruct (Hall i p Hp) as (g & q & Hi & Hq & Hg).
      destruct (Hall1 i p Hp) as (g1 & q1 & Hi1 & Hq1 & Hg1).
      rewrite <- (infer_result p s1 _ Hfr1), Hi in Hi1. inversion Hi1; subst.
      rewrite Hg, Hg1. reflexivity.
    - apply lookup_ge_None in Hp.
      rewrite (proj2 (lookup_ge_None _ i)) by lia.
      rewrite (proj2 (lookup_ge_None _ i)) by lia. reflexivity. }
  destruct Hpg as [Hp Hg].
  destruct Hfr1 as (H1 & H2 & H3 & H4 & H5 & H6 & H7 & _).
  destruct (populate s1) as [r s2] eqn:Hr. simpl in *. subst r.
  f_equal. apply evaluator_eq; auto.
Qed.

(** The first inference that raises makes [__init__] raise. *)
Lemma init_raises (m : Mdl) imgs labels dev cd sd l1 p l2 e :
  list_files_of_a_type E imgs ".png" = l1 ++ p :: l2 ->
  Forall (fun p' => is_Ok (fst (infer_for_one_img p'
                                  (attributes m imgs labels dev cd sd))) = true) l1 ->
  fst (infer_for_one_img p (attributes m imgs labels dev cd sd)) = Raise e ->
  __init__ E m imgs labels dev cd sd = Raise e.
Proof.
  intros Hl Hall Hp. unfold __init__.
  set (s := attributes m imgs labels dev cd sd) in *.
  assert (Hr : fst (populate s) = Raise e).
  { rewrite populate_is_pass.
    change (test_imgs s) with imgs. rewrite Hl.
    apply pass_raises.
    - eapply Forall_impl; [exact Hall|]. intros p' Hp'; simpl in Hp'.
      rewrite <- (infer_result p' _ _ (cleared_frame s)). exact Hp'.
    - rewrite <- (infer_result p _ _ (cleared_frame s)). exact Hp. }
  destruct (populate s) as [[[]|e'] s']; simpl in Hr; congruence.
Qed.

(** *** Passes that end and passes that abort *)

Lemma pass_ok (ps : list string) : forall s : self_t,
  Forall (fun p => is_Ok (fst (infer_for_one_img p s)) = true) ps ->
  fst (pass ps s) = Ok tt.
Proof.
  induction ps as [|p ps IH]; intros s Hall; [reflexivity|].
  cbn [pass]. unfold bind.
  pose proof (turn_frame p s) as Hfr. rewrite turn_spec in *.
  inversion Hall as [|? ? H1 Hrest]; subst.
  destruct (fst (infer_for_one_img p s)) as [[g q]|e]; [|discriminate].
  simpl in Hfr. apply IH.
  eapply Forall_impl; [exact Hrest|]. intros p' Hp'; simpl in Hp'.
  rewrite <- (infer_result p' _ _ Hfr). exact Hp'.
Qed.

Lemma pass_ok_inv (ps : list string) (s : self_t) :
  fst (pass ps s) = Ok tt ->
  Forall (fun p => is_Ok (fst (infer_for_one_img p s)) = true) ps.
Proof.
  intros Hok.
  destruct (pass_entries ps s Hok) as (gs & qs & _ & _ & _ & _ & Hall).
  apply Forall_lookup. intros i p Hp.
  destruct (Hall i p Hp) as (g & q & Hi & _). rewrite Hi. reflexivity.
Qed.

(** What an aborted pass leaves behind: the entries of the images before
    the one that raised. *)
Lemma pass_aborted (l1 : list string) : forall (s : self_t) p l2 e,
  Forall (fun p' => is_Ok (fst (infer_for_one_img p' s)) = true) l1 ->
  fst (infer_for_one_img p s) = Raise e ->
  exists gs qs,
    preds (snd (pass (l1 ++ p :: l2) s)) = preds s ++ qs /\
    gt (snd (pass (l1 ++ p :: l2) s)) = gt s ++ gs /\
    length qs = length l1 /\ length gs = length l1 /\
    forall i p', l1 !! i = Some p' ->
      exists g q, fst (infer_for_one_img p' s) = Ok (g, q) /\
                  qs !! i = Some q /\ gs !! i = Some g.
Proof.
  induction l1 as [|p1 l1 IH]; intros s p l2 e Hall Hp.
  - exists [], []. cbn [app pass]. unfold bind. rewrite turn_spec, Hp.
    simpl. rewrite !app_nil_r. repeat split; auto.
    intros i p' Hp'. rewrite lookup_nil in Hp'. discriminate.
  - cbn [app pass]. unfold bind.
    pose proof (turn_frame p1 s) as Hfr. rewrite turn_spec in *.
    inversion Hall as [|? ? H1 Hrest]; subst.
    destruct (fst (infer_for_one_img p1 s)) as [[g q]|e1] eqn:Hp1; [|discriminate].
    simpl in Hfr.
    set (s1 := set_gt (gt s ++ [g]) (set_preds (preds s ++ [q])
                                       (set_model (touch (model s)) s))) in *.
    destruct (IH s1 p l2 e) as (gs & qs & Hq & Hg & Hlq & Hlg & Hent).
    + eapply Forall_impl; [exact Hrest|]. intros p' Hp'; simpl in Hp'.
      rewrite <- (infer_result p' _ _ Hfr). exact Hp'.
    + rewrite <- (infer_result p _ _ Hfr). exact Hp.
    + exists (g :: gs), (q :: qs). simpl in Hq, Hg.
      rewrite Hq, Hg, <- !app_assoc. simpl. repeat split; auto.
      intros [|i] p' Hp'; simpl in Hp'.
      * inversion Hp'; subst p'. exists g, q. auto.
      * destruct (Hent i p' Hp') as (g' & q' & Hi & Hqi & Hgi).
        exists g', q'. rewrite (infer_result p' _ _ Hfr). auto.
Qed.

Lemma populate_ok_iff (s : self_t) :
  fst (populate s) = Ok tt <->
  Forall (fun p => is_Ok (fst (infer_for_one_img p s)) = true) (listing s).
Proof.
  rewrite populate_is_pass. split; intros H.
  - apply pass_ok_inv in H. eapply Forall_impl; [exact H|].
    intros p Hp; simpl in Hp.
    rewrite (infer_result p _ _ (cleared_frame s)). exact Hp.
  - apply pass_ok. eapply Forall_impl; [exact H|].
    intros p Hp; simpl in Hp.
    rewrite <- (infer_result p _ _ (cleared_frame s)). exact Hp.
Qed.

Lemma populate_aborted (s : self_t) l1 p l2 e :
  listing s = l1 ++ p :: l2 ->
  Forall (fun p' => is_Ok (fst (infer_for_one_img p' s)) = true) l1 ->
  fst (infer_for_one_img p s) = Raise e ->
  fst (populate s) = Raise e /\
  length (preds (snd (populate s))) = length l1 /\
  length (gt (snd (populate s))) = length l1 /\
  forall i p', l1 !! i = Some p' ->
    exists g q, fst (infer_for_one_img p' s) = Ok (g, q) /\
                preds (snd (populate s)) !! i = Some q /\
                gt (snd (populate s)) !! i = Some g.
Proof.
  intros Hl Hall Hp. rewrite populate_is_pass, Hl.
  set (s0 := set_gt [] (set_preds [] s)).
  assert (Hall0 : Forall (fun p' => is_Ok (fst (infer_for_one_img p' s0)) = true) l1).
  { eapply Forall_impl; [exact Hall|]. intros p' Hp'; simpl in Hp'.
    unfold s0. rewrite <- (infer_result p' _ _ (cleared_frame s)). exact Hp'. }
  assert (Hp0 : fst (infer_for_one_img p s0) = Raise e).
  { unfold s0. rewrite <- (infer_result p _ _ (cleared_frame s)). exact Hp. }
  split; [apply pass_raises; assumption|].
  destruct (pass_aborted l1 s0 p l2 e Hall0 Hp0) as (gs & qs & Hq & Hg & Hlq & Hlg & Hent).
  simpl in Hq, Hg. rewrite Hq, Hg. repeat split; auto.
  intros i p' Hp'. destruct (Hent i p' Hp') as (g & q & Hi & Hqi & Hgi).
  exists g, q. rewrite (infer_result p' _ _ (cleared_frame s)). fold s0. auto.
Qed.

(** *** What [__init__] returns *)

Lemma init_ok_inv (m : Mdl) imgs labels dev cd sd (h : self_t) :
  __init__ E m imgs labels dev cd sd = Ok h ->
  fst (populate (attributes m imgs labels dev cd sd)) = Ok tt /\
  h = set_metrics
        {| m_save_dir := sd; idx_to_name := cd;
           detections := preds (snd (populate (attributes m imgs labels dev cd sd)));
           ground_truths := gt (snd (populate (attributes m imgs labels dev cd sd)));
           m_device := dev |}
        (snd (populate (attributes m imgs labels dev cd sd))).
Proof.
  unfold __init__.
  destruct (populate (attributes m imgs labels dev cd sd)) as [[[]|e] s'];
    [|discriminate].
  intros Hh; inversion Hh; subst. split; reflexivity.
Qed.

Lemma init_ok_iff (m : Mdl) imgs labels dev cd sd :
  is_Ok (__init__ E m imgs labels dev cd sd) = true <->
  Forall (fun p => is_Ok (fst (infer_for_one_img p
                                 (attributes m imgs labels dev cd sd))) = true)
         (list_files_of_a_type E imgs ".png").
Proof.
  rewrite <- (populate_ok_iff (attributes m imgs labels dev cd sd)).
  unfold __init__.
  destruct (populate (attributes m imgs labels dev cd sd)) as [[[]|e] s']; simpl;
    split; intros H; try reflexivity; discriminate.
Qed.

Lemma init_contract_holds (m : Mdl) imgs labels dev cd sd (h : self_t) :
  __init__ E m imgs labels dev cd sd = Ok h ->
  test_imgs h = imgs /\ test_labels h = labels /\ device h = dev /\
  class_dict h = cd /\ save_dir h = sd /\ num_classes h = size (dom cd) /\
  metrics h = Some {| m_save_dir := sd; idx_to_name := cd;
                      detections := preds h; ground_truths := gt h;
                      m_device := dev |} /\
  length (preds h) = length (list_files_of_a_type E imgs ".png") /\
  length (gt h) = length (list_files_of_a_type E imgs ".png") /\
  model h = match list_files_of_a_type E imgs ".png" with
            | [] => m
            | _ => touch m
            end.
Proof.
  intros Hh. destruct (init_ok_inv _ _ _ _ _ _ _ Hh) as [Hok ->].
  set (a := attributes m imgs labels dev cd sd) in *.
  destruct (populate_frame a) as (H1 & H2 & H3 & H4 & H5 & H6 & _ & _).
  destruct (populate_aligned a) as [Hlen Hal]. destruct (Hal Hok) as [Hn _].
  cbn [test_imgs test_labels device class_dict save_dir num_classes metrics
       preds gt model set_metrics].
  rewrite <- H1, <- H2, <- H3, <- H4, <- H5, <- H6.
  repeat split; auto.
  - rewrite <- Hlen. exact Hn.
  - rewrite populate_is_pass, pass_model. reflexivity.
Qed.

End PassFacts.

(** ** The two subclasses *)

Section Variants.

Context {F Plane8 PlaneF CM : Type} (of_int : Z -> F).
Context (E : @Collaborators F Plane8 PlaneF CM).

Abbreviation Yolo := (YoloEvaluator of_int E).
Abbreviation RCNN := (RCNNEvaluator of_int E).
Abbreviation labels_of := (get_labels_for_image of_int E).

(** The ground truth only depends on the label directory. *)
Lemma get_labels_frame {M1 M2} (s : @Evaluator F M1) (t : @Evaluator F M2) p :
  test_labels s = test_labels t -> labels_of s p = labels_of t p.
Proof. unfold get_labels_for_image; intros ->; reflexivity. Qed.

(** The only exception of its own that [get_labels_for_image] raises is the
    one for the missing file. *)
Lemma get_labels_raise {Mdl} (s : @Evaluator F Mdl) p fn :
  labels_of s p = Raise (LabelFileNotFoundError fn) ->
  os_path_exists E (label_path E (test_labels s) p) = false.
Proof.
  unfold get_labels_for_image, label_path.
  destruct (os_path_exists E _); [|reflexivity]. cbn [negb].
  destruct (bboxes_from_yolo_labels E _ false) as [bboxes labels].
  unfold as_tensor_int32. destruct (forallb in_int32 labels); [|discriminate].
  cbn [rbind cat]. destruct (Nat.eqb _ _); discriminate.
Qed.

Lemma get_labels_missing {Mdl} (s : @Evaluator F Mdl) p :
  os_path_exists E (label_path E (test_labels s) p) = false ->
  labels_of s p = Raise (LabelFileNotFoundError (get_filename E p)).
Proof.
  unfold get_labels_for_image, label_path. intros ->. reflexivity.
Qed.

Lemma hcat_column {A} (f : Z -> A) (bs : list (list A)) : forall ls : list Z,
  hcat bs (map (map f) (map (fun x => [x]) ls))
  = zip_with (fun b l => b ++ [f l]) bs ls.
Proof.
  induction bs as [|b bs IH]; intros [|l ls]; simpl; try reflexivity.
  f_equal; apply IH.
Qed.

Lemma get_labels_present {Mdl} (s : @Evaluator F Mdl) p bboxes labels :
  os_path_exists E (label_path E (test_labels s) p) = true ->
  bboxes_from_yolo_labels E (label_path E (test_labels s) p) false = (bboxes, labels) ->
  nrows bboxes = length labels ->
  Forall int32 labels ->
  labels_of s p =
  Ok {| ncols := ncols bboxes + 1;
        rows := zip_with (fun b l => b ++ [of_int l]) (rows bboxes) labels |}.
Proof.
  unfold get_labels_for_image, label_path. intros -> -> Hn Hr. cbn [negb].
  rewrite (as_tensor_int32_ok labels Hr). cbn [rbind cat].
  unfold nrows, tmap, unsqueeze in *. cbn [rows ncols].
  rewrite !length_map. rewrite (nat_eqb_refl' _ _ Hn).
  rewrite hcat_column. reflexivity.
Qed.

(** *** [YoloEvaluator.infer_for_one_img] *)

Lemma yolo_infer (p : string) (s : @Evaluator F YoloModel) :
  @infer_for_one_img F _ Yolo p s =
  (rbind (labels_of s p) (fun g =>
   rbind (index (model s p false 0 (device s)) 0) (fun r =>
   Ok (g, data (boxes r)))), s).
Proof.
  cbn [infer_for_one_img YoloEvaluator]. unfold bind, reads, gets, lift, ret.
  unfold YoloModel in *.
  destruct (labels_of s p); [|reflexivity]. cbn [rbind].
  destruct (index _ 0); reflexivity.
Qed.

Lemma set_model_same {Mdl} (s : @Evaluator F Mdl) : set_model (model s) s = s.
Proof. destruct s; reflexivity. Qed.

Lemma yolo_state p (s : @Evaluator F YoloModel) :
  snd (@infer_for_one_img F _ Yolo p s) = set_model (id (model s)) s.
Proof. rewrite yolo_infer. symmetry. apply set_model_same. Qed.

Lemma yolo_result p (s t : @Evaluator F YoloModel) :
  same_frame id s t ->
  fst (@infer_for_one_img F _ Yolo p s) = fst (@infer_for_one_img F _ Yolo p t).
Proof.
  intros (_ & Hl & Hd & _ & _ & _ & _ & Hm). unfold id in Hm.
  rewrite !yolo_infer. cbn [fst].
  rewrite (get_labels_frame s t p Hl), Hm, Hd. reflexivity.
Qed.

(** *** [RCNNEvaluator.infer_for_one_img] *)

Lemma rcnn_infer (p : string) (s : @Evaluator F RCNNModel) :
  @infer_for_one_img F _ RCNN p s =
  (rbind (index (forward (model s) false [rcnn_input E p (device s)]) 0) (fun pred =>
   rbind (normalize of_int pred) (fun q =>
   rbind (labels_of s p) (fun g => Ok (g, q)))),
   set_model (eval (model s)) s).
Proof.
  cbn [infer_for_one_img RCNNEvaluator].
  unfold bind, modify, reads, gets, lift, ret, call, rcnn_input.
  cbn [model set_model device eval training forward].
  destruct (index _ 0) as [pred|e]; [|reflexivity]. cbn [rbind].
  destruct (normalize of_int pred) as [q|e]; [|reflexivity]. cbn [rbind].
  rewrite (get_labels_frame (set_model (eval (model s)) s) s p eq_refl).
  destruct (labels_of s p); reflexivity.
Qed.

Lemma eval_idem (m : @RCNNModel F PlaneF) : eval (eval m) = eval m.
Proof. reflexivity. Qed.

Lemma rcnn_state p (s : @Evaluator F RCNNModel) :
  snd (@infer_for_one_img F _ RCNN p s) = set_model (eval (model s)) s.
Proof. rewrite rcnn_infer. reflexivity. Qed.

Lemma rcnn_result p (s t : @Evaluator F RCNNModel) :
  same_frame eval s t ->
  fst (@infer_for_one_img F _ RCNN p s) = fst (@infer_for_one_img F _ RCNN p t).
Proof.
  intros (_ & Hl & Hd & _ & _ & _ & _ & Hm).
  assert (Hf : forward (model s) = forward (model t))
    by (apply (f_equal forward) in Hm; exact Hm).
  rewrite !rcnn_infer. cbn [fst].
  rewrite (get_labels_frame s t p Hl), Hf, Hd. reflexivity.
Qed.

End Variants.

(** * The harness and its two subclasses *)

(** C1. Over an empty image directory both sequences are empty, and
    [confusion_matrix] and [ap_per_class] raise the no-data exception; but
    [map50] and [map50_95] carry no guard and return what the metrics engine
    returns. *)
Theorem map50_unguarded :
  exists h,
    __init__ Demo.env (cls := YoloEvaluator inject_Z Demo.env)
             Demo.yolo "empty" "labels" "cpu" Demo.classes "out" = Ok h /\
    preds h = [] /\ gt h = [] /\
    confusion_matrix Demo.env h (1 # 4) false false = Raise NoDataError /\
    ap_per_class Demo.env h false false "" = Raise NoDataError /\
    map50 Demo.env h = Ok (Demo.q 0) /\
    map50_95 Demo.env h = Ok (Demo.q 0).
Proof.
  eexists. split; [reflexivity|]. repeat split.
Qed.

(** C3, as amended. A second population pass over a populated harness first
    clears both sequences and then rebuilds them: the state after two passes
    is the state after one, each image's entries being held once. *)
Theorem population_repeatable {F Plane8 PlaneF CM} (of_int : Z -> F)
    (E : @Collaborators F Plane8 PlaneF CM) :
  (forall s : @Evaluator F YoloModel,
     let populate := __get_preds_and_labels E (cls := YoloEvaluator of_int E) in
     fst (populate s) = Ok tt ->
     populate (snd (populate s)) = (Ok tt, snd (populate s))) /\
  (forall s : @Evaluator F RCNNModel,
     let populate := __get_preds_and_labels E (cls := RCNNEvaluator of_int E) in
     fst (populate s) = Ok tt ->
     populate (snd (populate s)) = (Ok tt, snd (populate s))).
Proof.
  split; intros s populate Hok.
  - apply (populate_repeat E id); auto.
    + apply yolo_state.
    + apply yolo_result.
  - apply (populate_repeat E eval); auto.
    + apply rcnn_state.
    + apply rcnn_result.
Qed.

Lemma population_repeatable_witness :
  let populate :=
    __get_preds_and_labels Demo.env (cls := RCNNEvaluator inject_Z Demo.env) in
  let s := Demo.fresh Demo.rcnn "one" in
  fst (populate s) = Ok tt /\
  populate (snd (populate s)) = (Ok tt, snd (populate s)) /\
  length (preds (snd (populate (snd (populate s))))) = 1%nat.
Proof.
  intros populate s.
  assert (Hok : fst (populate s) = Ok tt) by reflexivity.
  split; [exact Hok | split].
  - exact (proj2 (population_repeatable inject_Z Demo.env) s Hok).
  - reflexivity.
Defined.

Lemma population_duplicates_counterexample :
  let populate :=
    __get_preds_and_labels Demo.env (cls := YoloEvaluator inject_Z Demo.env) in
  let once := snd (populate (Demo.fresh Demo.yolo "one")) in
  let twice := snd (populate once) in
  preds once = [Demo.yolo_out] /\ gt once = [Demo.gt_a] /\
  ~ (preds twice = preds once ++ preds once /\ gt twice = gt once ++ gt once).
Proof.
  intros populate once twice. split; [reflexivity | split; [reflexivity|]].
  intros [H _]. vm_compute in H. discriminate H.
Qed.

(** C4, as amended. An inference assigns none of the harness's attributes
    but, in the two-stage variant, the model, which it puts in evaluation
    mode; the single-stage variant leaves the harness as it is. What is
    returned depends on the harness through the model, the device and the
    label directory only, and a second inference on the same image returns
    the same result and leaves the same state as the first. *)
Theorem inference_frame {F Plane8 PlaneF CM} (of_int : Z -> F)
    (E : @Collaborators F Plane8 PlaneF CM) (p : string) :
  (forall s : @Evaluator F YoloModel,
     let infer := infer_for_one_img (EvaluatorClass := YoloEvaluator of_int E) p in
     snd (infer s) = s /\
     fst (infer s) = fst (infer (bare (model s) (device s) (test_labels s))) /\
     infer (snd (infer s)) = infer s) /\
  (forall s : @Evaluator F RCNNModel,
     let infer := infer_for_one_img (EvaluatorClass := RCNNEvaluator of_int E) p in
     snd (infer s) = set_model (eval (model s)) s /\
     fst (infer s) = fst (infer (bare (model s) (device s) (test_labels s))) /\
     infer (snd (infer s)) = infer s).
Proof.
  split; intros s infer; subst infer; cbv zeta.
  - rewrite !yolo_infer. cbn [fst snd]. repeat split.
  - rewrite !rcnn_infer. cbn [fst snd]. repeat split.
Qed.

Lemma inference_mutates_model_counterexample :
  let infer :=
    infer_for_one_img (EvaluatorClass := RCNNEvaluator inject_Z Demo.env) "imgs/a.png" in
  let s := Demo.fresh Demo.rcnn "one" in
  training (model s) = true /\
  training (model (snd (infer s))) = false /\
  snd (infer s) <> s.
Proof.
  intros infer s. split; [reflexivity | split; [reflexivity|]].
  intros H. apply (f_equal (fun t => training (model t))) in H.
  vm_compute in H. discriminate H.
Qed.

(** C5. The single-stage variant calls the model on the image path with
    [conf=0] on the harness's device and returns the tensor of the first
    result's boxes as it is, rows and columns untouched, next to the ground
    truth; the harness is left as it was. *)
Theorem yolo_passes_through {F Plane8 PlaneF CM} (of_int : Z -> F)
    (E : @Collaborators F Plane8 PlaneF CM)
    (s : @Evaluator F YoloModel) (p : string) (g : Tensor2 F) (r : Results)
    (rs : list Results) :
  get_labels_for_image of_int E s p = Ok g ->
  model s p false 0 (device s) = r :: rs ->
  infer_for_one_img (EvaluatorClass := YoloEvaluator of_int E) p s
  = (Ok (g, data (boxes r)), s).
Proof.
  intros Hg Hm. rewrite yolo_infer, Hg, Hm. reflexivity.
Qed.

Lemma yolo_passes_through_witness :
  let s := Demo.fresh Demo.yolo "one" in
  get_labels_for_image inject_Z Demo.env s "imgs/a.png" = Ok Demo.gt_a /\
  infer_for_one_img (EvaluatorClass := YoloEvaluator inject_Z Demo.env) "imgs/a.png" s
  = (Ok (Demo.gt_a, Demo.yolo_out), s).
Proof.
  intros s. split; [reflexivity|].
  exact (yolo_passes_through inject_Z Demo.env s "imgs/a.png" Demo.gt_a
           {| boxes := {| data := Demo.yolo_out |} |} [] eq_refl eq_refl).
Defined.

(** C6. After a population pass, aborted or not, both sequences have the
    same length; after one that ended, they have as many entries as there
    are images, and entry [i] of each is what the inference returns for
    image [i] of the listing. *)
Theorem population_aligned {F Plane8 PlaneF CM} (of_int : Z -> F)
    (E : @Collaborators F Plane8 PlaneF CM) :
  (forall s : @Evaluator F YoloModel,
     let populate := __get_preds_and_labels E (cls := YoloEvaluator of_int E) in
     aligned (cls := YoloEvaluator of_int E)
             (list_files_of_a_type E (test_imgs s) ".png")
             (fst (populate s)) (snd (populate s))) /\
  (forall s : @Evaluator F RCNNModel,
     let populate := __get_preds_and_labels E (cls := RCNNEvaluator of_int E) in
     aligned (cls := RCNNEvaluator of_int E)
             (list_files_of_a_type E (test_imgs s) ".png")
             (fst (populate s)) (snd (populate s))).
Proof.
  split; intros s populate.
  - apply (populate_aligned E id); auto.
    + apply yolo_state.
    + apply yolo_result.
  - apply (populate_aligned E eval); auto.
    + apply rcnn_state.
    + apply rcnn_result.
Qed.

Lemma population_aligned_witness :
  let populate :=
    __get_preds_and_labels Demo.env (cls := RCNNEvaluator inject_Z Demo.env) in
  let s := Demo.fresh Demo.rcnn "one" in
  fst (populate s) = Ok tt /\
  aligned (cls := RCNNEvaluator inject_Z Demo.env) ["imgs/a.png"] (Ok tt) (snd (populate s)).
Proof.
  intros populate s. split; [reflexivity|].
  exact (proj2 (population_aligned inject_Z Demo.env) s).
Defined.

(** C7. [get_labels_for_image] looks for [<base name>.txt] in the label
    directory and raises the missing-label exception exactly when that file
    is absent; when it is there, the boxes come back with the class ids,
    taken through 32-bit integers, as one more column. In both variants the
    first image whose label file is missing makes [__init__] raise that
    exception: no harness is returned. *)
Theorem missing_label_is_fatal {F Plane8 PlaneF CM} (of_int : Z -> F)
    (E : @Collaborators F Plane8 PlaneF CM) :
  (forall Mdl (s : @Evaluator F Mdl) p,
     os_path_exists E (os_path_join E (test_labels s) (get_filename E p +:+ ".txt")) = false
     <-> get_labels_for_image of_int E s p
         = Raise (LabelFileNotFoundError (get_filename E p))) /\
  (forall Mdl (s : @Evaluator F Mdl) p bboxes labels,
     os_path_exists E (label_path E (test_labels s) p) = true ->
     bboxes_from_yolo_labels E (label_path E (test_labels s) p) false = (bboxes, labels) ->
     nrows bboxes = length labels ->
     Forall int32 labels ->
     get_labels_for_image of_int E s p =
     Ok {| ncols := ncols bboxes + 1;
           rows := zip_with (fun b l => b ++ [of_int l]) (rows bboxes) labels |}) /\
  (forall (m : @YoloModel F) imgs labels dev cd sd l1 p l2,
     list_files_of_a_type E imgs ".png" = l1 ++ p :: l2 ->
     Forall (fun p' =>
               is_Ok (fst (infer_for_one_img (EvaluatorClass := YoloEvaluator of_int E) p'
                             (attributes m imgs labels dev cd sd))) = true) l1 ->
     os_path_exists E (label_path E labels p) = false ->
     __init__ E (cls := YoloEvaluator of_int E) m imgs labels dev cd sd
     = Raise (LabelFileNotFoundError (get_filename E p))) /\
  (forall (m : @RCNNModel F PlaneF) imgs labels dev cd sd l1 p l2 d ds q,
     list_files_of_a_type E imgs ".png" = l1 ++ p :: l2 ->
     Forall (fun p' =>
               is_Ok (fst (infer_for_one_img (EvaluatorClass := RCNNEvaluator of_int E) p'
                             (attributes m imgs labels dev cd sd))) = true) l1 ->
     forward m false [rcnn_input E p dev] = d :: ds ->
     normalize of_int d = Ok q ->
     os_path_exists E (label_path E labels p) = false ->
     __init__ E (cls := RCNNEvaluator of_int E) m imgs labels dev cd sd
     = Raise (LabelFileNotFoundError (get_filename E p))).
Proof.
  repeat split.
  - apply get_labels_missing.
  - apply get_labels_raise.
  - intros; apply get_labels_present; auto.
  - intros m imgs labels dev cd sd l1 p l2 Hl Hall Hx.
    apply (init_raises E id) with (l1 := l1) (p := p) (l2 := l2); auto.
    + apply yolo_state.
    + apply yolo_result.
    + rewrite yolo_infer. cbn [fst].
      rewrite (get_labels_missing of_int E) by exact Hx. reflexivity.
  - intros m imgs labels dev cd sd l1 p l2 d ds q Hl Hall Hf Hn Hx.
    apply (init_raises E eval) with (l1 := l1) (p := p) (l2 := l2); auto.
    + apply rcnn_state.
    + apply rcnn_result.
    + rewrite rcnn_infer. cbn [fst model device attributes].
      rewrite Hf. cbn [index lookup list_lookup rbind]. rewrite Hn. cbn [rbind].
      rewrite (get_labels_missing of_int E) by exact Hx. reflexivity.
Qed.

Lemma missing_label_is_fatal_witness :
  list_files_of_a_type Demo.env "two" ".png" = ["imgs/a.png"] ++ "imgs/b.png" :: [] /\
  os_path_exists Demo.env (label_path Demo.env "labels" "imgs/b.png") = false /\
  __init__ Demo.env (cls := RCNNEvaluator inject_Z Demo.env)
           Demo.rcnn "two" "labels" "cpu" Demo.classes "out"
  = Raise (LabelFileNotFoundError "b").
Proof.
  split; [reflexivity | split; [reflexivity|]].
  refine (proj2 (proj2 (proj2 (missing_label_is_fatal inject_Z Demo.env)))
            Demo.rcnn "two" "labels" "cpu" Demo.classes "out"
            ["imgs/a.png"] "imgs/b.png" [] Demo.rcnn_out [] _ eq_refl _ eq_refl eq_refl eq_refl).
  repeat constructor.
Defined.

(** C8. When the two-stage model reports no detection for an image, or
    background only, and the image's labels load, the inference returns the
    tensor of no rows and six columns next to the ground truth, and a
    population pass that ends holds it at the image's index. *)
Theorem background_only_is_stored {F Plane8 PlaneF CM} (of_int : Z -> F)
    (E : @Collaborators F Plane8 PlaneF CM)
    (s : @Evaluator F RCNNModel) (p : string) (d : Detections)
    (ds : list Detections) (g : Tensor2 F) :
  let infer := infer_for_one_img (EvaluatorClass := RCNNEvaluator of_int E) in
  let populate := __get_preds_and_labels E (cls := RCNNEvaluator of_int E) in
  forward (model s) false [rcnn_input E p (device s)] = d :: ds ->
  parallel d ->
  Forall (fun l => l = 0) (d_labels d) ->
  get_labels_for_image of_int E s p = Ok g ->
  fst (infer p s) = Ok (g, no_rows) /\
  forall i, list_files_of_a_type E (test_imgs s) ".png" !! i = Some p ->
            fst (populate s) = Ok tt ->
            preds (snd (populate s)) !! i = Some no_rows /\
            gt (snd (populate s)) !! i = Some g.
Proof.
  intros infer populate Hf Hp H0 Hg.
  assert (Hi : fst (infer p s) = Ok (g, no_rows)).
  { unfold infer. rewrite rcnn_infer. cbn [fst]. rewrite Hf.
    cbn [index lookup list_lookup rbind].
    rewrite (normalize_background of_int d Hp H0). cbn [rbind].
    rewrite Hg. reflexivity. }
  split; [exact Hi|]. intros i Hl Hok.
  apply (populate_entry E eval) with (p := p); auto.
  - apply rcnn_state.
  - apply rcnn_result.
Qed.

Lemma background_only_is_stored_witness :
  let populate :=
    __get_preds_and_labels Demo.env (cls := RCNNEvaluator inject_Z Demo.env) in
  let s := Demo.fresh Demo.rcnn_blind "one" in
  parallel Demo.background_only /\
  fst (populate s) = Ok tt /\
  preds (snd (populate s)) = [no_rows] /\
  fst (infer_for_one_img (EvaluatorClass := RCNNEvaluator inject_Z Demo.env)
         "imgs/a.png" s) = Ok (Demo.gt_a, no_rows).
Proof.
  intros populate s.
  assert (Hp : parallel Demo.background_only).
  { unfold parallel, well_shaped; simpl; repeat split; repeat constructor. }
  assert (H0 : Forall (fun l => l = 0) (d_labels Demo.background_only)).
  { simpl; repeat constructor. }
  split; [exact Hp | split; [reflexivity | split; [reflexivity|]]].
  exact (proj1 (background_only_is_stored inject_Z Demo.env s "imgs/a.png"
                  Demo.background_only [] Demo.gt_a eq_refl Hp H0 eq_refl)).
Defined.

(** C9. On harnesses with the same label directory, the single-stage and
    the two-stage inference return the same ground truth for an image, the
    one [get_labels_for_image] loads, whatever the models predict. *)
Theorem ground_truth_shared {F Plane8 PlaneF CM} (of_int : Z -> F)
    (E : @Collaborators F Plane8 PlaneF CM)
    (sy : @Evaluator F YoloModel) (sr : @Evaluator F RCNNModel) (p : string)
    (g : Tensor2 F) (r : Results) (rs : list Results)
    (d : Detections) (ds : list Detections) (q : Tensor2 F) :
  test_labels sy = test_labels sr ->
  get_labels_for_image of_int E sy p = Ok g ->
  model sy p false 0 (device sy) = r :: rs ->
  forward (model sr) false [rcnn_input E p (device sr)] = d :: ds ->
  normalize of_int d = Ok q ->
  fst (infer_for_one_img (EvaluatorClass := YoloEvaluator of_int E) p sy)
  = Ok (g, data (boxes r)) /\
  fst (infer_for_one_img (EvaluatorClass := RCNNEvaluator of_int E) p sr)
  = Ok (g, q).
Proof.
  intros Hl Hg Hm Hf Hn. split.
  - rewrite yolo_infer. cbn [fst]. rewrite Hg, Hm. reflexivity.
  - rewrite rcnn_infer. cbn [fst]. rewrite Hf.
    cbn [index lookup list_lookup rbind]. rewrite Hn. cbn [rbind].
    rewrite <- (get_labels_frame of_int E sy sr p Hl), Hg. reflexivity.
Qed.

Lemma ground_truth_shared_witness :
  let sy := Demo.fresh Demo.yolo "one" in
  let sr := Demo.fresh Demo.rcnn "two" in
  fst (infer_for_one_img (EvaluatorClass := YoloEvaluator inject_Z Demo.env)
         "imgs/a.png" sy) = Ok (Demo.gt_a, Demo.yolo_out) /\
  fst (infer_for_one_img (EvaluatorClass := RCNNEvaluator inject_Z Demo.env)
         "imgs/a.png" sr) = Ok (Demo.gt_a, Demo.yolo_out).
Proof.
  intros sy sr.
  exact (ground_truth_shared inject_Z Demo.env sy sr "imgs/a.png" Demo.gt_a
           {| boxes := {| data := Demo.yolo_out |} |} [] Demo.rcnn_out [] Demo.yolo_out
           eq_refl eq_refl eq_refl eq_refl eq_refl).
Defined.

(** C10. The guard of [confusion_matrix] and of [ap_per_class] is a
    conjunction: as soon as one of the two sequences is not empty, both
    queries hand over to the metrics engine and return what it returns. *)
Theorem guard_is_conjunction {F Plane8 PlaneF CM}
    (E : @Collaborators F Plane8 PlaneF CM) {Mdl} (s : @Evaluator F Mdl)
    (m : ObjectDetectionMetrics) (conf_threshold : F) (all_iou plot plot_all : bool)
    (prefix : string) :
  metrics s = Some m ->
  preds s <> [] \/ gt s <> [] ->
  confusion_matrix E s conf_threshold all_iou plot
  = get_confusion_matrix E m conf_threshold all_iou plot /\
  ap_per_class E s plot plot_all prefix
  = metrics_ap_per_class E m plot plot_all prefix.
Proof.
  intros Hm Hne. unfold confusion_matrix, ap_per_class, the_metrics. rewrite Hm.
  assert (Hg : is_empty (preds s) && is_empty (gt s) = false).
  { destruct (preds s), (gt s); simpl; try reflexivity.
    destruct Hne as [Hne|Hne]; congruence. }
  rewrite Hg. split; reflexivity.
Qed.

Lemma guard_is_conjunction_witness :
  preds Demo.lopsided <> [] /\ gt Demo.lopsided = [] /\
  confusion_matrix Demo.env Demo.lopsided (1 # 4) false false = Ok tt /\
  ap_per_class Demo.env Demo.lopsided false false "" = Ok {| ncols := 0; rows := [] |}.
Proof.
  assert (Hne : preds Demo.lopsided <> []) by (simpl; discriminate).
  split; [exact Hne | split; [reflexivity|]].
  exact (guard_is_conjunction Demo.env Demo.lopsided _ (1 # 4) false false false ""
           eq_refl (or_introl Hne)).
Defined.

(** * Further properties *)

(** ** The two-stage normalizer on any output *)

Lemma selections_wrapped {F} (of_int : Z -> F) (ls : list Z) :
  forall (bs : list (list F)) (ss : list F),
  length bs = length ls -> length ss = length ls ->
  let i := map (fun l => negb (l =? 0)) ls in
  hcat (select bs i)
       (hcat (map (fun x => [x]) (select ss i))
             (map (map of_int)
                  (map (map (fun l => sub64 l 1))
                       (map (fun x => [x]) (select ls i)))))
  = map (row_wrapped of_int) (List.filter foreground (zip3 bs ss ls)).
Proof.
  induction ls as [|l ls IH]; intros [|b bs] [|s ss] Hb Hs; simpl in *;
    try congruence; try reflexivity.
  destruct (l =? 0); simpl; [|f_equal]; apply IH; lia.
Qed.

Lemma filter_zip3_length {F} (ls : list Z) : forall (bs : list (list F)) (ss : list F),
  length bs = length ls -> length ss = length ls ->
  length (List.filter foreground (zip3 bs ss ls))
  = length (List.filter (fun l => negb (l =? 0)) ls).
Proof.
  induction ls as [|l ls IH]; intros [|b bs] [|s ss] Hb Hs; simpl in *;
    try congruence; try reflexivity.
  destruct (l =? 0); simpl; [|f_equal]; apply IH; lia.
Qed.

(** The normalizer without a bound on the labels or on the box columns. *)
Lemma normalize_any_output_aux {F} (of_int : Z -> F) (pred : @Detections F) :
  nrows (d_boxes pred) = length (d_labels pred) ->
  length (d_scores pred) = length (d_labels pred) ->
  normalize of_int pred =
  Ok {| ncols := ncols (d_boxes pred) + 2;
        rows := map (row_wrapped of_int)
                    (List.filter foreground
                       (zip3 (rows (d_boxes pred)) (d_scores pred) (d_labels pred))) |}.
Proof.
  intros Hb Hs.
  unfold normalize, mask_index2, mask_index1.
  set (i := map (fun l => negb (l =? 0)) (d_labels pred)).
  assert (Hi : length i = length (d_labels pred)) by (unfold i; apply length_map).
  rewrite (nat_eqb_refl' (nrows (d_boxes pred)) (length i)) by lia.
  rewrite (nat_eqb_refl' (length (d_scores pred)) (length i)) by lia.
  rewrite (nat_eqb_refl' (length (d_labels pred)) (length i)) by lia.
  cbn [rbind cat]. unfold nrows, tmap, unsqueeze. cbn [ncols rows].
  rewrite !length_map.
  rewrite (nat_eqb_refl' (length (select (d_scores pred) i))
                        (length (select (d_labels pred) i)))
    by (apply select_length; lia).
  cbn [rbind ncols rows nrows].
  rewrite hcat_length by (rewrite !length_map; apply select_length; lia).
  rewrite length_map.
  rewrite (nat_eqb_refl' (length (select (rows (d_boxes pred)) i))
                        (length (select (d_scores pred) i)))
    by (apply select_length; unfold nrows in Hb; lia).
  f_equal. f_equal.
  apply selections_wrapped; auto.
Qed.

(** X1. Whenever the boxes and the scores are as many as the labels, the
    normalizer returns a tensor of two columns more than the boxes, with
    one row per label other than [0], in the order of the output; the class
    column is the label less one in 64-bit arithmetic, promoted. *)
Theorem normalize_any_output {F} (of_int : Z -> F) (pred : @Detections F) :
  nrows (d_boxes pred) = length (d_labels pred) ->
  length (d_scores pred) = length (d_labels pred) ->
  normalize of_int pred =
  Ok {| ncols := ncols (d_boxes pred) + 2;
        rows := map (row_wrapped of_int)
                    (List.filter foreground
                       (zip3 (rows (d_boxes pred)) (d_scores pred) (d_labels pred))) |}.
Proof. apply normalize_any_output_aux. Qed.

Lemma normalize_any_output_witness :
  normalize inject_Z Edge.wide =
  Ok {| ncols := 7;
        rows := [[Demo.q 1; Demo.q 1; Demo.q 2; Demo.q 2; Demo.q 7; 5 # 10;
                  Demo.q (2 ^ 63 - 1)]] |}.
Proof.
  exact (normalize_any_output inject_Z Edge.wide eq_refl eq_refl).
Defined.

(** The normalizer on arrays of different lengths. *)
Lemma normalize_ragged_aux {F} (of_int : Z -> F) (pred : @Detections F) :
  nrows (d_boxes pred) <> length (d_labels pred) \/
  length (d_scores pred) <> length (d_labels pred) ->
  normalize of_int pred = Raise mask_mismatch.
Proof.
  intros H. unfold normalize, mask_index2, mask_index1.
  rewrite !length_map.
  destruct (Nat.eqb_spec (nrows (d_boxes pred)) (length (d_labels pred))) as [Hb|Hb];
    [|reflexivity].
  cbn [rbind].
  destruct (Nat.eqb_spec (length (d_scores pred)) (length (d_labels pred))) as [Hs|Hs];
    [|reflexivity].
  destruct H; contradiction.
Qed.

(** X2. When the boxes or the scores are not as many as the labels, the
    normalizer raises the mask-mismatch [IndexError] and returns nothing. *)
Theorem normalize_ragged {F} (of_int : Z -> F) (pred : @Detections F) :
  nrows (d_boxes pred) <> length (d_labels pred) \/
  length (d_scores pred) <> length (d_labels pred) ->
  normalize of_int pred = Raise mask_mismatch.
Proof. apply normalize_ragged_aux. Qed.

Lemma normalize_ragged_witness :
  nrows (d_boxes Edge.ragged) <> length (d_labels Edge.ragged) /\
  normalize inject_Z Edge.ragged = Raise mask_mismatch.
Proof.
  assert (H : nrows (d_boxes Edge.ragged) <> length (d_labels Edge.ragged))
    by (simpl; discriminate).
  split; [exact H|].
  exact (normalize_ragged inject_Z Edge.ragged (or_introl H)).
Defined.

(** X3. A tensor the normalizer returns has as many rows as the output has
    labels other than [0], hence never more rows than detections, and two
    columns more than the boxes. *)
Theorem normalize_row_count {F} (of_int : Z -> F) (pred : @Detections F)
    (t : Tensor2 F) :
  normalize of_int pred = Ok t ->
  nrows t = length (List.filter (fun l => negb (l =? 0)) (d_labels pred)) /\
  (nrows t <= length (d_labels pred))%nat /\
  ncols t = (ncols (d_boxes pred) + 2)%nat.
Proof.
  intros Hn.
  destruct (Nat.eq_dec (nrows (d_boxes pred)) (length (d_labels pred))) as [Hb|Hb];
    [|rewrite normalize_ragged_aux in Hn by (left; exact Hb); discriminate].
  destruct (Nat.eq_dec (length (d_scores pred)) (length (d_labels pred))) as [Hs|Hs];
    [|rewrite normalize_ragged_aux in Hn by (right; exact Hs); discriminate].
  assert (Ht := normalize_any_output_aux of_int pred Hb Hs).
  rewrite Ht in Hn. inversion Hn; subst t; clear Hn.
  unfold nrows in *. cbn [rows ncols]. rewrite length_map.
  rewrite filter_zip3_length by assumption.
  repeat split. apply List.filter_length_le.
Qed.

Lemma normalize_row_count_witness :
  exists t, normalize inject_Z Demo.rcnn_out = Ok t /\ nrows t = 2%nat /\ ncols t = 6%nat.
Proof.
  eexists. split; [reflexivity|].
  destruct (normalize_row_count inject_Z Demo.rcnn_out _ eq_refl) as (Hr & _ & Hc).
  split; [exact Hr | exact Hc].
Defined.

(** ** [get_labels_for_image] when it returns *)

Lemma forallb_int32 (xs : list Z) : forallb in_int32 xs = true -> Forall int32 xs.
Proof.
  intros H. apply List.Forall_forall. intros x Hx.
  pose proof (proj1 (forallb_forall in_int32 xs) H x Hx) as Hi.
  unfold in_int32 in Hi. apply andb_true_iff in Hi as [Hl Hu].
  apply Z.leb_le in Hl. apply Z.ltb_lt in Hu. unfold int32. lia.
Qed.

(** X4. A ground truth that [get_labels_for_image] returns comes from a
    label file that is there, whose class ids fit 32-bit integers and are
    as many as its boxes; it has one row per class id, the box followed by
    the class id, and so one column more than the boxes. *)
Theorem labels_loaded_shape {F Plane8 PlaneF CM} (of_int : Z -> F)
    (E : @Collaborators F Plane8 PlaneF CM) {Mdl} (s : @Evaluator F Mdl)
    (p : string) (t : Tensor2 F) :
  let file := bboxes_from_yolo_labels E (label_path E (test_labels s) p) false in
  get_labels_for_image of_int E s p = Ok t ->
  os_path_exists E (label_path E (test_labels s) p) = true /\
  Forall int32 (snd file) /\
  nrows (fst file) = length (snd file) /\
  nrows t = length (snd file) /\
  ncols t = (ncols (fst file) + 1)%nat /\
  rows t = zip_with (fun b l => b ++ [of_int l]) (rows (fst file)) (snd file).
Proof.
  intros file. subst file. unfold get_labels_for_image, label_path.
  destruct (os_path_exists E _); [|discriminate]. cbn [negb].
  destruct (bboxes_from_yolo_labels E _ false) as [bboxes labels]. cbn [fst snd].
  unfold as_tensor_int32.
  destruct (forallb in_int32 labels) eqn:Hr; [|discriminate].
  cbn [rbind cat]. unfold nrows, tmap, unsqueeze. cbn [rows ncols].
  rewrite !length_map.
  destruct (Nat.eqb_spec (length (rows bboxes)) (length labels)) as [Hn|Hn];
    [|discriminate].
  intros Ht. inversion Ht; subst t; clear Ht. cbn [rows ncols].
  rewrite hcat_column.
  repeat split; auto using forallb_int32.
  rewrite length_zip_with. lia.
Qed.

Lemma labels_loaded_shape_witness :
  get_labels_for_image inject_Z Demo.env (Demo.fresh Demo.yolo "one") "imgs/a.png"
  = Ok Demo.gt_a /\
  nrows Demo.gt_a = 1%nat /\ ncols Demo.gt_a = 5%nat.
Proof.
  split; [reflexivity|].
  destruct (labels_loaded_shape inject_Z Demo.env (Demo.fresh Demo.yolo "one")
              "imgs/a.png" Demo.gt_a eq_refl) as (_ & _ & _ & Hr & Hc & _).
  split; [exact Hr | exact Hc].
Defined.

(** ** Errors of the two inferences *)

(** X5. The single-stage inference looks for the labels first: for an image
    without a label file it raises the missing-label exception whatever the
    model, and leaves the harness as it was. *)
Theorem yolo_missing_label {F Plane8 PlaneF CM} (of_int : Z -> F)
    (E : @Collaborators F Plane8 PlaneF CM) (s : @Evaluator F YoloModel) (p : string) :
  os_path_exists E (label_path E (test_labels s) p) = false ->
  infer_for_one_img (EvaluatorClass := YoloEvaluator of_int E) p s
  = (Raise (LabelFileNotFoundError (get_filename E p)), s).
Proof.
  intros Hx. rewrite yolo_infer.
  rewrite (get_labels_missing of_int E) by exact Hx. reflexivity.
Qed.

Lemma yolo_missing_label_witness :
  os_path_exists Demo.env (label_path Demo.env "labels" "imgs/b.png") = false /\
  infer_for_one_img (EvaluatorClass := YoloEvaluator inject_Z Demo.env) "imgs/b.png"
    (Demo.fresh Demo.yolo "two")
  = (Raise (LabelFileNotFoundError "b"), Demo.fresh Demo.yolo "two").
Proof.
  split; [reflexivity|].
  exact (yolo_missing_label inject_Z Demo.env (Demo.fresh Demo.yolo "two")
           "imgs/b.png" eq_refl).
Defined.

(** X6. When the labels load but the single-stage model returns an empty
    list of results, the inference raises the [IndexError] of [[0]] and
    leaves the harness as it was. *)
Theorem yolo_no_result {F Plane8 PlaneF CM} (of_int : Z -> F)
    (E : @Collaborators F Plane8 PlaneF CM) (s : @Evaluator F YoloModel)
    (p : string) (g : Tensor2 F) :
  get_labels_for_image of_int E s p = Ok g ->
  model s p false 0 (device s) = [] ->
  infer_for_one_img (EvaluatorClass := YoloEvaluator of_int E) p s
  = (Raise (IndexError "list index out of range"), s).
Proof.
  intros Hg Hm. rewrite yolo_infer, Hg, Hm. reflexivity.
Qed.

Lemma yolo_no_result_witness :
  infer_for_one_img (EvaluatorClass := YoloEvaluator inject_Z Demo.env) "imgs/a.png"
    (Demo.fresh Edge.yolo_mute "one")
  = (Raise (IndexError "list index out of range"), Demo.fresh Edge.yolo_mute "one").
Proof.
  exact (yolo_no_result inject_Z Demo.env (Demo.fresh Edge.yolo_mute "one")
           "imgs/a.png" Demo.gt_a eq_refl eq_refl).
Defined.

(** X7. The two-stage inference runs the model before it looks for the
    labels: an exception from reading or normalizing the model's output is
    raised whether or not the image has a label file, and the model has
    been put in evaluation mode by then. *)
Theorem rcnn_model_error_first {F Plane8 PlaneF CM} (of_int : Z -> F)
    (E : @Collaborators F Plane8 PlaneF CM) (s : @Evaluator F RCNNModel)
    (p : string) (e : exn) :
  rbind (index (forward (model s) false [rcnn_input E p (device s)]) 0)
        (normalize of_int) = Raise e ->
  infer_for_one_img (EvaluatorClass := RCNNEvaluator of_int E) p s
  = (Raise e, set_model (eval (model s)) s).
Proof.
  intros He. rewrite rcnn_infer. f_equal.
  destruct (index _ 0) as [pred|e']; cbn [rbind] in *;
    [|inversion He; reflexivity].
  rewrite He. reflexivity.
Qed.

Lemma rcnn_model_error_first_witness :
  infer_for_one_img (EvaluatorClass := RCNNEvaluator inject_Z Demo.env) "imgs/b.png"
    (Demo.fresh Edge.rcnn_mute "two")
  = (Raise (IndexError "list index out of range"),
     set_model (eval Edge.rcnn_mute) (Demo.fresh Edge.rcnn_mute "two")).
Proof.
  exact (rcnn_model_error_first inject_Z Demo.env (Demo.fresh Edge.rcnn_mute "two")
           "imgs/b.png" _ eq_refl).
Defined.

(** X8. For an image without a label file whose model output normalizes,
    the two-stage inference raises the missing-label exception only after
    the model has run: the model is left in evaluation mode. *)
Theorem rcnn_missing_label {F Plane8 PlaneF CM} (of_int : Z -> F)
    (E : @Collaborators F Plane8 PlaneF CM) (s : @Evaluator F RCNNModel)
    (p : string) (d : Detections) (ds : list Detections) (q : Tensor2 F) :
  forward (model s) false [rcnn_input E p (device s)] = d :: ds ->
  normalize of_int d = Ok q ->
  os_path_exists E (label_path E (test_labels s) p) = false ->
  infer_for_one_img (EvaluatorClass := RCNNEvaluator of_int E) p s
  = (Raise (LabelFileNotFoundError (get_filename E p)),
     set_model (eval (model s)) s).
Proof.
  intros Hf Hn Hx. rewrite rcnn_infer, Hf.
  cbn [index lookup list_lookup rbind]. rewrite Hn. cbn [rbind].
  rewrite (get_labels_missing of_int E) by exact Hx. reflexivity.
Qed.

Lemma rcnn_missing_label_witness :
  training (model (Demo.fresh Demo.rcnn "two")) = true /\
  infer_for_one_img (EvaluatorClass := RCNNEvaluator inject_Z Demo.env) "imgs/b.png"
    (Demo.fresh Demo.rcnn "two")
  = (Raise (LabelFileNotFoundError "b"),
     set_model (eval Demo.rcnn) (Demo.fresh Demo.rcnn "two")).
Proof.
  split; [reflexivity|].
  exact (rcnn_missing_label inject_Z Demo.env (Demo.fresh Demo.rcnn "two")
           "imgs/b.png" Demo.rcnn_out [] _ eq_refl eq_refl eq_refl).
Defined.

(** X9. What the two-stage inference returns does not depend on the mode
    in which the model is handed over: the forward pass is always the one
    of the evaluation mode. *)
Theorem rcnn_mode_irrelevant {F Plane8 PlaneF CM} (of_int : Z -> F)
    (E : @Collaborators F Plane8 PlaneF CM) (s : @Evaluator F RCNNModel)
    (p : string) (mode : bool) :
  infer_for_one_img (EvaluatorClass := RCNNEvaluator of_int E) p
    (set_model {| training := mode; forward := forward (model s) |} s)
  = infer_for_one_img (EvaluatorClass := RCNNEvaluator of_int E) p s.
Proof.
  rewrite !rcnn_infer. reflexivity.
Qed.

(** ** [__init__] and the population pass in both subclasses *)

(** X10. In both subclasses [__init__] returns a harness exactly when the
    inference succeeds on every image of the listing; otherwise it raises. *)
Theorem init_succeeds_iff {F Plane8 PlaneF CM} (of_int : Z -> F)
    (E : @Collaborators F Plane8 PlaneF CM) :
  init_total E (YoloEvaluator of_int E) /\ init_total E (RCNNEvaluator of_int E).
Proof.
  split; intros m imgs labels dev cd sd.
  - apply (init_ok_iff E id); auto.
    + apply yolo_state.
    + apply yolo_result.
  - apply (init_ok_iff E eval); auto.
    + apply rcnn_state.
    + apply rcnn_result.
Qed.

Lemma init_succeeds_iff_witness :
  all_infer Demo.env (RCNNEvaluator inject_Z Demo.env)
            Demo.rcnn "one" "labels" "cpu" Demo.classes "out" /\
  is_Ok (__init__ Demo.env (cls := RCNNEvaluator inject_Z Demo.env)
           Demo.rcnn "one" "labels" "cpu" Demo.classes "out") = true /\
  ~ all_infer Demo.env (RCNNEvaluator inject_Z Demo.env)
              Demo.rcnn "two" "labels" "cpu" Demo.classes "out".
Proof.
  assert (H1 : all_infer Demo.env (RCNNEvaluator inject_Z Demo.env)
                 Demo.rcnn "one" "labels" "cpu" Demo.classes "out")
    by (repeat constructor).
  split; [exact H1 | split].
  - exact (proj2 (proj2 (init_succeeds_iff inject_Z Demo.env)
                    Demo.rcnn "one" "labels" "cpu" Demo.classes "out") H1).
  - intros H2.
    pose proof (proj1 (proj2 (init_succeeds_iff inject_Z Demo.env)
                         Demo.rcnn "two" "labels" "cpu" Demo.classes "out")) as Hi.
    destruct (is_Ok (__init__ Demo.env (cls := RCNNEvaluator inject_Z Demo.env)
                       Demo.rcnn "two" "labels" "cpu" Demo.classes "out")) eqn:Hc.
    + vm_compute in Hc. discriminate Hc.
    + inversion H2 as [|? ? _ Hb]. inversion Hb as [|? ? Hb' _].
      vm_compute in Hb'. discriminate Hb'.
Defined.

(** X11. In both subclasses the harness [__init__] returns holds the
    arguments it was given and the size of the class dictionary, has in
    each sequence one entry per image of the listing, and holds a metrics
    engine built on these very sequences, the class dictionary, the save
    directory and the device. *)
Theorem init_builds_engine {F Plane8 PlaneF CM} (of_int : Z -> F)
    (E : @Collaborators F Plane8 PlaneF CM) :
  init_contract E (YoloEvaluator of_int E) /\ init_contract E (RCNNEvaluator of_int E).
Proof.
  split; intros m imgs labels dev cd sd h Hh.
  - destruct (init_contract_holds E id (fun _ => eq_refl)
                (yolo_state of_int E) (yolo_result of_int E) _ _ _ _ _ _ _ Hh)
      as (H1 & H2 & H3 & H4 & H5 & H6 & H7 & H8 & H9 & _).
    unfold engine_of. rewrite H3, H4, H5. repeat split; assumption.
  - destruct (init_contract_holds E eval (fun _ => eq_refl)
                (rcnn_state of_int E) (rcnn_result of_int E) _ _ _ _ _ _ _ Hh)
      as (H1 & H2 & H3 & H4 & H5 & H6 & H7 & H8 & H9 & _).
    unfold engine_of. rewrite H3, H4, H5. repeat split; assumption.
Qed.

Lemma init_builds_engine_witness :
  exists h,
    __init__ Demo.env (cls := YoloEvaluator inject_Z Demo.env)
             Demo.yolo "one" "labels" "cpu" Demo.classes "out" = Ok h /\
    metrics h = Some (engine_of h) /\ length (preds h) = 1%nat /\
    num_classes h = 3%nat.
Proof.
  eexists. split; [reflexivity|].
  destruct (proj1 (init_builds_engine inject_Z Demo.env)
              Demo.yolo "one" "labels" "cpu" Demo.classes "out" _ eq_refl)
    as (_ & _ & _ & _ & _ & Hn & Hm & Hl & _).
  split; [exact Hm | split; [exact Hl | exact Hn]].
Defined.

(** X12. Over a directory that lists no image, [__init__] of any subclass
    returns the harness with both sequences empty and an engine over empty
    sequences, without a single inference: the model is the one given. *)
Theorem init_empty_listing {F Plane8 PlaneF CM}
    (E : @Collaborators F Plane8 PlaneF CM) {Mdl} (cls : @EvaluatorClass F Mdl)
    (m : Mdl) (imgs labels dev : string) (cd : gmap Z string) (sd : string) :
  list_files_of_a_type E imgs ".png" = [] ->
  __init__ E m imgs labels dev cd sd
  = Ok (set_metrics {| m_save_dir := sd; idx_to_name := cd; detections := [];
                       ground_truths := []; m_device := dev |}
          (attributes m imgs labels dev cd sd)).
Proof.
  intros Hl. unfold __init__. rewrite populate_is_pass.
  cbn [test_imgs attributes]. rewrite Hl. reflexivity.
Qed.

Lemma init_empty_listing_witness :
  list_files_of_a_type Demo.env "empty" ".png" = [] /\
  exists h,
    __init__ Demo.env (cls := RCNNEvaluator inject_Z Demo.env)
             Demo.rcnn "empty" "labels" "cpu" Demo.classes "out" = Ok h /\
    preds h = [] /\ gt h = [] /\ training (model h) = true.
Proof.
  split; [reflexivity|]. eexists. split.
  - exact (init_empty_listing Demo.env (RCNNEvaluator inject_Z Demo.env)
             Demo.rcnn "empty" "labels" "cpu" Demo.classes "out" eq_refl).
  - repeat split.
Defined.

(** X13. The model of the harness [__init__] returns: the one given in the
    single-stage subclass; in the two-stage subclass the one given, put in
    evaluation mode as soon as the listing has an image. *)
Theorem init_model {F Plane8 PlaneF CM} (of_int : Z -> F)
    (E : @Collaborators F Plane8 PlaneF CM) :
  (forall (m : @YoloModel F) imgs labels dev cd sd h,
     __init__ E (cls := YoloEvaluator of_int E) m imgs labels dev cd sd = Ok h ->
     model h = m) /\
  (forall (m : @RCNNModel F PlaneF) imgs labels dev cd sd h,
     __init__ E (cls := RCNNEvaluator of_int E) m imgs labels dev cd sd = Ok h ->
     model h = match list_files_of_a_type E imgs ".png" with
               | [] => m
               | _ => eval m
               end).
Proof.
  split; intros m imgs labels dev cd sd h Hh.
  - destruct (init_contract_holds E id (fun _ => eq_refl)
                (yolo_state of_int E) (yolo_result of_int E) _ _ _ _ _ _ _ Hh)
      as (_ & _ & _ & _ & _ & _ & _ & _ & _ & Hm).
    rewrite Hm. destruct (list_files_of_a_type E imgs ".png"); reflexivity.
  - destruct (init_contract_holds E eval (fun _ => eq_refl)
                (rcnn_state of_int E) (rcnn_result of_int E) _ _ _ _ _ _ _ Hh)
      as (_ & _ & _ & _ & _ & _ & _ & _ & _ & Hm).
    exact Hm.
Qed.

Lemma init_model_witness :
  training Demo.rcnn = true /\
  exists h,
    __init__ Demo.env (cls := RCNNEvaluator inject_Z Demo.env)
             Demo.rcnn "one" "labels" "cpu" Demo.classes "out" = Ok h /\
    model h = eval Demo.rcnn /\ training (model h) = false.
Proof.
  split; [reflexivity|]. eexists. split; [reflexivity|].
  pose proof (proj2 (init_model inject_Z Demo.env)
                Demo.rcnn "one" "labels" "cpu" Demo.classes "out" _ eq_refl) as Hm.
  split; [exact Hm | reflexivity].
Defined.

(** X14. On a harness that [__init__] of either subclass has built over at
    least one image, no query raises the no-data exception of its own: all
    four return what the engine built on the harness's sequences returns. *)
Theorem constructed_queries_delegate {F Plane8 PlaneF CM} (of_int : Z -> F)
    (E : @Collaborators F Plane8 PlaneF CM) :
  queries_delegate E (YoloEvaluator of_int E) /\
  queries_delegate E (RCNNEvaluator of_int E).
Proof.
  assert (Hq : forall Mdl (h : @Evaluator F Mdl) (n : list string)
                 conf_threshold all_iou plot plot_all prefix,
             metrics h = Some (engine_of h) -> length (preds h) = length n ->
             n <> [] ->
             confusion_matrix E h conf_threshold all_iou plot
             = get_confusion_matrix E (engine_of h) conf_threshold all_iou plot /\
             ap_per_class E h plot plot_all prefix
             = metrics_ap_per_class E (engine_of h) plot plot_all prefix /\
             map50 E h = get_map50 E (engine_of h) /\
             map50_95 E h = get_map50_95 E (engine_of h)).
  { intros Mdl h n c a pl pa pre Hm Hl Hn.
    unfold confusion_matrix, ap_per_class, map50, map50_95, the_metrics.
    rewrite Hm. destruct (preds h); [destruct n; [congruence | discriminate]|].
    repeat split. }
  split; intros m imgs labels dev cd sd h c a pl pa pre Hh Hn.
  - destruct (init_contract_holds E id (fun _ => eq_refl)
                (yolo_state of_int E) (yolo_result of_int E) _ _ _ _ _ _ _ Hh)
      as (_ & _ & H3 & H4 & H5 & _ & H7 & H8 & _).
    apply Hq with (n := list_files_of_a_type E imgs ".png"); auto.
    unfold engine_of. rewrite H3, H4, H5. exact H7.
  - destruct (init_contract_holds E eval (fun _ => eq_refl)
                (rcnn_state of_int E) (rcnn_result of_int E) _ _ _ _ _ _ _ Hh)
      as (_ & _ & H3 & H4 & H5 & _ & H7 & H8 & _).
    apply Hq with (n := list_files_of_a_type E imgs ".png"); auto.
    unfold engine_of. rewrite H3, H4, H5. exact H7.
Qed.

Lemma constructed_queries_delegate_witness :
  exists h,
    __init__ Demo.env (cls := YoloEvaluator inject_Z Demo.env)
             Demo.yolo "one" "labels" "cpu" Demo.classes "out" = Ok h /\
    confusion_matrix Demo.env h (1 # 4) false false = Ok tt /\
    map50 Demo.env h = Ok (Demo.q 1).
Proof.
  eexists. split; [reflexivity|].
  assert (Hn : list_files_of_a_type Demo.env "one" ".png" <> []) by discriminate.
  destruct (proj1 (constructed_queries_delegate inject_Z Demo.env)
              Demo.yolo "one" "labels" "cpu" Demo.classes "out" _
              (1 # 4) false false false "" eq_refl Hn) as (Hc & _ & Hm & _).
  split; [exact Hc | exact Hm].
Defined.

(** X15. In both subclasses a population pass that aborts raises what the
    inference raised on the first image that failed, and leaves in each
    sequence exactly the entries of the images before it, in order. *)
Theorem aborted_pass_keeps_prefix {F Plane8 PlaneF CM} (of_int : Z -> F)
    (E : @Collaborators F Plane8 PlaneF CM) :
  abort_keeps_prefix E (YoloEvaluator of_int E) /\
  abort_keeps_prefix E (RCNNEvaluator of_int E).
Proof.
  split; intros s l1 p l2 e Hl Hall Hp.
  - apply (populate_aborted E id) with (p := p) (l2 := l2); auto.
    + apply yolo_state.
    + apply yolo_result.
  - apply (populate_aborted E eval) with (p := p) (l2 := l2); auto.
    + apply rcnn_state.
    + apply rcnn_result.
Qed.

Lemma aborted_pass_keeps_prefix_witness :
  let populate :=
    __get_preds_and_labels Demo.env (cls := RCNNEvaluator inject_Z Demo.env) in
  let s := Demo.fresh Demo.rcnn "two" in
  fst (populate s) = Raise (LabelFileNotFoundError "b") /\
  length (preds (snd (populate s))) = 1%nat /\
  length (gt (snd (populate s))) = 1%nat.
Proof.
  intros populate s.
  assert (Hall : Forall (fun p' => is_Ok (fst (infer_for_one_img
                   (EvaluatorClass := RCNNEvaluator inject_Z Demo.env) p' s)) = true)
                   ["imgs/a.png"]) by (repeat constructor).
  destruct (proj2 (aborted_pass_keeps_prefix inject_Z Demo.env) s
              ["imgs/a.png"] "imgs/b.png" [] (LabelFileNotFoundError "b")
              eq_refl Hall eq_refl) as (Hr & Hp & Hg & _).
  split; [exact Hr | split; [exact Hp | exact Hg]].
Defined.

(** X16. A population pass of either subclass assigns nothing but the two
    sequences and, in the two-stage subclass, the model: the paths, the
    device, the class dictionary and the metrics engine stay as they were,
    so an engine built before the pass is not rebuilt by it. *)
Theorem pass_frame_kept {F Plane8 PlaneF CM} (of_int : Z -> F)
    (E : @Collaborators F Plane8 PlaneF CM) :
  (forall s : @Evaluator F YoloModel,
     pass_keeps E (YoloEvaluator of_int E) s /\
     model (snd (__get_preds_and_labels E (cls := YoloEvaluator of_int E) s))
     = model s) /\
  (forall s : @Evaluator F RCNNModel,
     pass_keeps E (RCNNEvaluator of_int E) s /\
     model (snd (__get_preds_and_labels E (cls := RCNNEvaluator of_int E) s))
     = match list_files_of_a_type E (test_imgs s) ".png" with
       | [] => model s
       | _ => eval (model s)
       end).
Proof.
  split; intros s.
  - destruct (populate_frame E id (fun _ => eq_refl)
                (yolo_state of_int E) s) as (H1 & H2 & H3 & H4 & H5 & H6 & H7 & _).
    split; [unfold pass_keeps; repeat split; auto|].
    rewrite populate_is_pass.
    rewrite (pass_model id (fun _ => eq_refl) (yolo_state of_int E)).
    cbn [model set_gt set_preds].
    destruct (list_files_of_a_type E (test_imgs s) ".png"); reflexivity.
  - destruct (populate_frame E eval (fun _ => eq_refl)
                (rcnn_state of_int E) s) as (H1 & H2 & H3 & H4 & H5 & H6 & H7 & _).
    split; [unfold pass_keeps; repeat split; auto|].
    rewrite populate_is_pass.
    rewrite (pass_model eval (fun _ => eq_refl) (rcnn_state of_int E)).
    reflexivity.
Qed.
